(** * Zodson: conversion between Zod schemas and MongoDB BSON schemas

    A shallow embedding of [zodToBsonSchema], [createMongoValidator] and
    [mongoSchemaToZod] (and of the older pair [zodToBson] / [bsonToZod]),
    with the properties of the converters stated and proved over it.

    - A Zod schema is a tree of class instances; it is modelled by the
      inductive type [ZodType], one constructor per Zod class, carrying the
      fields of [_def] that the converters read or set.
    - A BSON schema is a plain JS object; it is modelled by [TMongoSchema]:
      either the [oneOf] shape or a node with every keyword optional.
    - [throw new Error(msg)] is modelled by the result type [Result]. *)

From Stdlib Require Import List String Ascii ZArith Bool Lia.
Import ListNotations.
Open Scope string_scope.
Open Scope Z_scope.
Open Scope list_scope.

Set Warnings "-register-all".

(** ** Exceptions *)

(** What a conversion can throw: [new Error(message)], or the engine's
    [TypeError] when a property of [undefined] is read. *)
Inductive Exception : Type :=
| Error (message : string)
| TypeError.

Inductive Result (A : Type) : Type :=
| Ok (value : A)
| Throw (e : Exception).

Arguments Ok {A} value.
Arguments Throw {A} e.

Definition bind {A B : Type} (c : Result A) (k : A -> Result B) : Result B :=
  match c with
  | Ok a => k a
  | Throw e => Throw e
  end.

Notation "x <- c ;; k" := (bind c (fun x => k))
  (at level 61, c at next level, right associativity).

(** [xs.map(f)] where [f] may throw: elements are converted from left to
    right and the first exception aborts the whole map. *)
Definition mapM {A B : Type} (f : A -> Result B) : list A -> Result (list B) :=
  fix go (xs : list A) : Result (list B) :=
    match xs with
    | [] => Ok []
    | x :: rest =>
        y <- f x ;;
        ys <- go rest ;;
        Ok (y :: ys)
    end.

(** ** Regular expressions *)

Definition objectIdPattern : string := "^[0-9a-fA-F]{24}$".

Definition emailPattern : string :=
  "^[a-zA-Z0-9._%+-]+@[a-zA-Z0-9.-]+\.[a-zA-Z]{2,}$".

Definition isLineTerminator (c : ascii) : bool :=
  (Ascii.eqb c "010" || Ascii.eqb c "013")%bool.

Definition escapeLineTerminator (c : ascii) : string :=
  if Ascii.eqb c "010" then "\n" else "\r".

(** A [RegExp] object is represented by its [source].  [escapePattern]
    gives the [source] of [new RegExp(pattern)] for a nonempty pattern: a
    [/] outside a character class and a line feed or carriage return are
    escaped, all else is kept.  Whether the pattern is a well-formed
    regular expression is not modelled. *)
Fixpoint escapePattern (inClass : bool) (pattern : string) : string :=
  match pattern with
  | EmptyString => EmptyString
  | String c rest =>
      if Ascii.eqb c "\" then
        match rest with
        | EmptyString => String c EmptyString
        | String c2 rest2 =>
            if isLineTerminator c2
            then (escapeLineTerminator c2 ++ escapePattern inClass rest2)%string
            else String c (String c2 (escapePattern inClass rest2))
        end
      else if isLineTerminator c then
        (escapeLineTerminator c ++ escapePattern inClass rest)%string
      else if (Ascii.eqb c "/" && negb inClass)%bool then
        ("\/" ++ escapePattern inClass rest)%string
      else if Ascii.eqb c "[" then String c (escapePattern true rest)
      else if Ascii.eqb c "]" then String c (escapePattern false rest)
      else String c (escapePattern inClass rest)
  end.

(** [new RegExp(pattern).source] *)
Definition RegExp_source (pattern : string) : string :=
  match pattern with
  | EmptyString => "(?:)"
  | _ => escapePattern false pattern
  end.

(** ** Zod schemas *)

(** An entry of [ZodString]'s [_def.checks]; the constructor is the check's
    [kind]. *)
Inductive ZodStringCheck : Type :=
| StringMin (value : Z)
| StringMax (value : Z)
| StringRegex (source : string)
| StringEmail
| StringUuid
| StringOtherCheck (kind : string).

(** An entry of [ZodNumber]'s [_def.checks]. *)
Inductive ZodNumberCheck : Type :=
| NumberMin (value : Z) (inclusive : bool)
| NumberMax (value : Z) (inclusive : bool)
| NumberInt
| NumberMultipleOf (value : Z)
| NumberOtherCheck (kind : string).

(** [_def.unknownKeys] of a [ZodObject]. *)
Inductive UnknownKeys : Type := strip | strict | passthrough.

(** The three effects [mongoSchemaToZod] attaches: the uniqueness [refine]
    of an array, the property-count [superRefine] of an object (it closes
    over the two bounds of the BSON schema) and the base64 [transform]. *)
Inductive ZodEffect : Type :=
| RefineUniqueItems
| SuperRefineProperties (minProperties maxProperties : option Z)
| TransformBase64.

(** A [ZodObject]'s shape is given as [Object.entries(shape)]: the list of
    its (key, schema) pairs in enumeration order, keys distinct. *)
Inductive ZodType : Type :=
| ZodOptional (innerType : ZodType)
| ZodNullable (innerType : ZodType)
| ZodUndefined
| ZodUnion (options : list ZodType)
| ZodObject (shape : list (string * ZodType)) (unknownKeys : UnknownKeys)
| ZodRecord (valueType : ZodType)
| ZodArray (element : ZodType) (minLength maxLength : option Z)
| ZodString (checks : list ZodStringCheck)
| ZodNumber (checks : list ZodNumberCheck)
| ZodBoolean
| ZodDate
| ZodEnum (values : list string)
| ZodNativeEnum (values : list (string * string))
| ZodAny
| ZodEffects (schema : ZodType) (effect : ZodEffect)
| ZodOther (constructorName : string).

(** [value instanceof z.ZodOptional] *)
Definition isZodOptional (value : ZodType) : bool :=
  match value with
  | ZodOptional _ => true
  | _ => false
  end.

(** [zodSchema.constructor.name] *)
Definition constructorName (zodSchema : ZodType) : string :=
  match zodSchema with
  | ZodOptional _ => "ZodOptional"
  | ZodNullable _ => "ZodNullable"
  | ZodUndefined => "ZodUndefined"
  | ZodUnion _ => "ZodUnion"
  | ZodObject _ _ => "ZodObject"
  | ZodRecord _ => "ZodRecord"
  | ZodArray _ _ _ => "ZodArray"
  | ZodString _ => "ZodString"
  | ZodNumber _ => "ZodNumber"
  | ZodBoolean => "ZodBoolean"
  | ZodDate => "ZodDate"
  | ZodEnum _ => "ZodEnum"
  | ZodNativeEnum _ => "ZodNativeEnum"
  | ZodAny => "ZodAny"
  | ZodEffects _ _ => "ZodEffects"
  | ZodOther name => name
  end.

(** [export const zodObjectId = z.string().regex(new RegExp(objectIdPattern))] *)
Definition zodObjectId : ZodType :=
  ZodString [StringRegex (RegExp_source objectIdPattern)].

(** ** BSON schemas *)

(** [TBsonTypes]: the values the type declarations give to [bsonType]. *)
Definition TBsonTypes : list string :=
  ["double"; "string"; "object"; "array"; "objectId"; "bool"; "date"; "null";
   "regex"; "int"; "timestamp"; "long"; "decimal"; "uuid"; "binData"; "mixed"].

(** The scalar keywords of a BSON schema object; [None] is an absent (or
    [undefined]) property.  Numbers are only ever copied or compared with a
    count, so they are integers here.  The keywords [description], [title],
    [additionalItems], [exclusiveMinimum], [exclusiveMaximum],
    [patternProperties], [dependencies] and [binaryType] are never read or
    written by the converters and are left out. *)
Record Keywords : Type := mkKeywords {
  bsonType : option string;
  enum : option (list string);
  minItems : option Z;
  maxItems : option Z;
  uniqueItems : option bool;
  required : option (list string);
  minProperties : option Z;
  maxProperties : option Z;
  minLength : option Z;
  maxLength : option Z;
  pattern : option string;
  minimum : option Z;
  maximum : option Z;
  multipleOf : option Z
}.

(** [TMongoSchema]: the [oneOf] shape, or an object with keywords, with
    [items] (one schema or a list), [properties] (as [Object.entries]) and
    [additionalProperties] (a boolean or a schema). *)
Inductive TMongoSchema : Type :=
| OneOf (oneOf : list TMongoSchema)
| Schema (keywords : Keywords)
         (items : option (TMongoSchema + list TMongoSchema))
         (properties : option (list (string * TMongoSchema)))
         (additionalProperties : option (bool + TMongoSchema)).

(** [{}] *)
Definition noKeywords : Keywords :=
  mkKeywords None None None None None None None None None None None None None None.

(** [{ bsonType: kind }] *)
Definition ofType (kind : string) : Keywords :=
  mkKeywords (Some kind) None None None None None None None None None None None None None.

Definition set_bsonType (v : string) (k : Keywords) : Keywords :=
  mkKeywords (Some v) (enum k) (minItems k) (maxItems k) (uniqueItems k)
    (required k) (minProperties k) (maxProperties k) (minLength k)
    (maxLength k) (pattern k) (minimum k) (maximum k) (multipleOf k).

Definition set_enum (v : list string) (k : Keywords) : Keywords :=
  mkKeywords (bsonType k) (Some v) (minItems k) (maxItems k) (uniqueItems k)
    (required k) (minProperties k) (maxProperties k) (minLength k)
    (maxLength k) (pattern k) (minimum k) (maximum k) (multipleOf k).

Definition set_minItems (v : Z) (k : Keywords) : Keywords :=
  mkKeywords (bsonType k) (enum k) (Some v) (maxItems k) (uniqueItems k)
    (required k) (minProperties k) (maxProperties k) (minLength k)
    (maxLength k) (pattern k) (minimum k) (maximum k) (multipleOf k).

Definition set_maxItems (v : Z) (k : Keywords) : Keywords :=
  mkKeywords (bsonType k) (enum k) (minItems k) (Some v) (uniqueItems k)
    (required k) (minProperties k) (maxProperties k) (minLength k)
    (maxLength k) (pattern k) (minimum k) (maximum k) (multipleOf k).

Definition set_required (v : list string) (k : Keywords) : Keywords :=
  mkKeywords (bsonType k) (enum k) (minItems k) (maxItems k) (uniqueItems k)
    (Some v) (minProperties k) (maxProperties k) (minLength k)
    (maxLength k) (pattern k) (minimum k) (maximum k) (multipleOf k).

Definition set_minLength (v : Z) (k : Keywords) : Keywords :=
  mkKeywords (bsonType k) (enum k) (minItems k) (maxItems k) (uniqueItems k)
    (required k) (minProperties k) (maxProperties k) (Some v)
    (maxLength k) (pattern k) (minimum k) (maximum k) (multipleOf k).

Definition set_maxLength (v : Z) (k : Keywords) : Keywords :=
  mkKeywords (bsonType k) (enum k) (minItems k) (maxItems k) (uniqueItems k)
    (required k) (minProperties k) (maxProperties k) (minLength k)
    (Some v) (pattern k) (minimum k) (maximum k) (multipleOf k).

Definition set_pattern (v : string) (k : Keywords) : Keywords :=
  mkKeywords (bsonType k) (enum k) (minItems k) (maxItems k) (uniqueItems k)
    (required k) (minProperties k) (maxProperties k) (minLength k)
    (maxLength k) (Some v) (minimum k) (maximum k) (multipleOf k).

Definition set_minimum (v : Z) (k : Keywords) : Keywords :=
  mkKeywords (bsonType k) (enum k) (minItems k) (maxItems k) (uniqueItems k)
    (required k) (minProperties k) (maxProperties k) (minLength k)
    (maxLength k) (pattern k) (Some v) (maximum k) (multipleOf k).

Definition set_maximum (v : Z) (k : Keywords) : Keywords :=
  mkKeywords (bsonType k) (enum k) (minItems k) (maxItems k) (uniqueItems k)
    (required k) (minProperties k) (maxProperties k) (minLength k)
    (maxLength k) (pattern k) (minimum k) (Some v) (multipleOf k).

Definition set_multipleOf (v : Z) (k : Keywords) : Keywords :=
  mkKeywords (bsonType k) (enum k) (minItems k) (maxItems k) (uniqueItems k)
    (required k) (minProperties k) (maxProperties k) (minLength k)
    (maxLength k) (pattern k) (minimum k) (maximum k) (Some v).

(** A schema object that has scalar keywords only. *)
Definition node (k : Keywords) : TMongoSchema := Schema k None None None.

(** ** Zod schema to BSON schema *)

(** The test of the early return of the string case:
    [check.kind === 'regex' && check.regex.source === objectIdPattern] *)
Definition isObjectIdCheck (check : ZodStringCheck) : bool :=
  match check with
  | StringRegex source => String.eqb source objectIdPattern
  | _ => false
  end.

(** The body of [checks.forEach] in the string case: one assignment to
    [stringSchema] per check. *)
Definition applyStringCheck (stringSchema : Keywords) (check : ZodStringCheck)
  : Keywords :=
  match check with
  | StringMin value => set_minLength value stringSchema
  | StringMax value => set_maxLength value stringSchema
  | StringRegex source => set_pattern source stringSchema
  | StringEmail => set_pattern emailPattern stringSchema
  | _ => stringSchema
  end.

(** The string case of [zodToBsonSchema] (the same in [zodToBson]). *)
Definition stringToBson (checks : list ZodStringCheck) : Keywords :=
  if existsb isObjectIdCheck checks then ofType "objectId"
  else fold_left applyStringCheck checks (ofType "string").

(** [type.bsonType === 'int' || type.bsonType === 'long'] *)
Definition isIntOrLong (type : Keywords) : bool :=
  match bsonType type with
  | Some kind => (String.eqb kind "int" || String.eqb kind "long")%bool
  | None => false
  end.

(** The body of [checks.forEach] in the number case of [zodToBsonSchema]:
    it rebuilds [numberSchema.oneOf]. *)
Definition applyNumberCheck (oneOf : list Keywords) (check : ZodNumberCheck)
  : list Keywords :=
  match check with
  | NumberMin value _ => map (set_minimum value) oneOf
  | NumberMax value _ => map (set_maximum value) oneOf
  | NumberInt => filter isIntOrLong oneOf
  | _ => oneOf
  end.

Definition numbers : list Keywords :=
  [ofType "int"; ofType "long"; ofType "double"; ofType "decimal"].

(** The number case of [zodToBsonSchema]. *)
Definition numberToBson (checks : list ZodNumberCheck) : TMongoSchema :=
  OneOf (map node (fold_left applyNumberCheck checks numbers)).

(** The loop over [Object.entries(shape)] of the object case; [properties]
    and [required] are the two accumulators the loop fills. *)
Definition shapeToBson (convert : ZodType -> Result TMongoSchema) :
  list (string * ZodType) -> list (string * TMongoSchema) -> list string ->
  Result (list (string * TMongoSchema) * list string) :=
  fix loop entries properties required :=
    match entries with
    | [] => Ok (properties, required)
    | (key, value) :: rest =>
        converted <- convert value ;;
        loop rest (properties ++ [(key, converted)])
          (if isZodOptional value then required else required ++ [key])
    end.

(** [{ bsonType: 'object', properties, ...(required.length > 0 && { required }) }] *)
Definition objectSchema (properties : list (string * TMongoSchema))
  (required : list string) : TMongoSchema :=
  Schema
    (match required with
     | [] => ofType "object"
     | _ => set_required required (ofType "object")
     end)
    None (Some properties) None.

(** The array case: [items] and the two optional length bounds. *)
Definition arraySchema (items : TMongoSchema) (minLength maxLength : option Z)
  : TMongoSchema :=
  let withMin :=
    match minLength with
    | Some value => set_minItems value (ofType "array")
    | None => ofType "array"
    end in
  let withMax :=
    match maxLength with
    | Some value => set_maxItems value withMin
    | None => withMin
    end in
  Schema withMax (Some (inl items)) None None.

Definition unsupportedZodType (zodSchema : ZodType) : Exception :=
  Error ("Unsupported Zod type: " ++ constructorName zodSchema)%string.

Fixpoint zodToBsonSchema (zodSchema : ZodType) : Result TMongoSchema :=
  match zodSchema with
  | ZodOptional innerType => zodToBsonSchema innerType
  | ZodNullable innerType =>
      innerSchema <- zodToBsonSchema innerType ;;
      Ok (OneOf [node (ofType "null"); innerSchema])
  | ZodUndefined => Ok (node noKeywords)
  | ZodUnion options =>
      members <- mapM zodToBsonSchema options ;;
      Ok (OneOf members)
  | ZodObject shape _ =>
      filled <- shapeToBson zodToBsonSchema shape [] [] ;;
      Ok (objectSchema (fst filled) (snd filled))
  | ZodRecord valueType =>
      valueSchema <- zodToBsonSchema valueType ;;
      Ok (Schema (ofType "object") None None (Some (inr valueSchema)))
  | ZodArray element minLength maxLength =>
      items <- zodToBsonSchema element ;;
      Ok (arraySchema items minLength maxLength)
  | ZodString checks => Ok (node (stringToBson checks))
  | ZodNumber checks => Ok (numberToBson checks)
  | ZodBoolean => Ok (node (ofType "bool"))
  | ZodDate => Ok (node (ofType "date"))
  | ZodEnum values => Ok (node (set_enum values (ofType "string")))
  | ZodNativeEnum values =>
      Ok (node (set_enum (map snd values) (ofType "string")))
  | ZodAny => Ok (node noKeywords)
  | ZodEffects _ _ | ZodOther _ => Throw (unsupportedZodType zodSchema)
  end.

(** [{ $jsonSchema: zodToBsonSchema(zodSchema) }], as the list of the
    entries of the object returned. *)
Definition createMongoValidator (zodSchema : ZodType)
  : Result (list (string * TMongoSchema)) :=
  jsonSchema <- zodToBsonSchema zodSchema ;;
  Ok [("$jsonSchema", jsonSchema)].

(** ** BSON schema to Zod schema *)

(** [mongoSchema.bsonType === kind] *)
Definition hasType (k : Keywords) (kind : string) : bool :=
  match bsonType k with
  | Some t => String.eqb t kind
  | None => false
  end.

(** [kinds.includes(mongoSchema.bsonType)] *)
Definition includesType (kinds : list string) (k : Keywords) : bool :=
  match bsonType k with
  | Some t => existsb (String.eqb t) kinds
  | None => false
  end.

(** [`Unsupported BSON type: ${mongoSchema.bsonType}`] *)
Definition unsupportedBsonType (k : Keywords) : Exception :=
  Error ("Unsupported BSON type: " ++
         match bsonType k with
         | Some t => t
         | None => "undefined"
         end)%string.

(** The array case once the element schema is known: the two length bounds
    and, when [uniqueItems] is truthy, the uniqueness refinement. *)
Definition arrayToZod (k : Keywords) (elementSchema : ZodType) : ZodType :=
  let arraySchema := ZodArray elementSchema (minItems k) (maxItems k) in
  match uniqueItems k with
  | Some true => ZodEffects arraySchema RefineUniqueItems
  | _ => arraySchema
  end.

(** The loop over [Object.entries(mongoSchema.properties)]; [shape] is the
    accumulator. *)
Definition propertiesToZod (convert : TMongoSchema -> Result ZodType)
  (required : list string) :
  list (string * TMongoSchema) -> list (string * ZodType) ->
  Result (list (string * ZodType)) :=
  fix loop entries shape :=
    match entries with
    | [] => Ok shape
    | (key, value) :: rest =>
        fieldSchema <- convert value ;;
        loop rest
          (shape ++ [(key, if existsb (String.eqb key) required
                           then fieldSchema
                           else ZodOptional fieldSchema)])
    end.

(** The object case once the shape is known. *)
Definition objectToZod (k : Keywords)
  (additionalProperties : option (bool + TMongoSchema))
  (shape : list (string * ZodType)) : ZodType :=
  let baseSchema :=
    ZodObject shape
      match additionalProperties with
      | Some (inl false) => strict
      | _ => passthrough
      end in
  match minProperties k, maxProperties k with
  | None, None => baseSchema
  | minP, maxP => ZodEffects baseSchema (SuperRefineProperties minP maxP)
  end.

Definition optionalCheck {A B : Type} (keyword : option A) (check : A -> B)
  : list B :=
  match keyword with
  | Some value => [check value]
  | None => []
  end.

(** The string case. *)
Definition stringToZod (k : Keywords) : ZodType :=
  let stringSchema :=
    ZodString (optionalCheck (minLength k) StringMin ++
               optionalCheck (maxLength k) StringMax ++
               optionalCheck (pattern k)
                 (fun p => StringRegex (RegExp_source p))) in
  match enum k with
  | Some values => ZodEnum values
  | None => stringSchema
  end.

(** The number case. *)
Definition numberToZod (k : Keywords) : ZodType :=
  ZodNumber ((if includesType ["int"; "long"] k then [NumberInt] else []) ++
             optionalCheck (minimum k) (fun v => NumberMin v true) ++
             optionalCheck (maximum k) (fun v => NumberMax v true) ++
             optionalCheck (multipleOf k) NumberMultipleOf).

Definition numberTypes : list string :=
  ["number"; "double"; "int"; "long"; "decimal"].

Fixpoint mongoSchemaToZod (mongoSchema : TMongoSchema) : Result ZodType :=
  match mongoSchema with
  | OneOf oneOf =>
      schemas <- mapM mongoSchemaToZod oneOf ;;
      Ok (ZodUnion schemas)
  | Schema k items properties additionalProperties =>
      if hasType k "array" then
        elementSchema <-
          match items with
          | Some (inr [single]) => mongoSchemaToZod single
          | Some (inr several) =>
              members <- mapM mongoSchemaToZod several ;;
              Ok (ZodUnion members)
          | Some (inl single) => mongoSchemaToZod single
          | None => Throw TypeError
          end ;;
        Ok (arrayToZod k elementSchema)
      else if hasType k "object" then
        match properties with
        | Some entries =>
            shape <- propertiesToZod mongoSchemaToZod
                       (match required k with Some r => r | None => [] end)
                       entries [] ;;
            Ok (objectToZod k additionalProperties shape)
        | None => Throw TypeError
        end
      else if hasType k "string" then Ok (stringToZod k)
      else if hasType k "bool" then Ok ZodBoolean
      else if hasType k "objectId" then Ok zodObjectId
      else if hasType k "date" then Ok ZodDate
      else if hasType k "uuid" then Ok (ZodString [StringUuid])
      else if hasType k "binData" then
        Ok (ZodEffects (ZodString []) TransformBase64)
      else if includesType numberTypes k then Ok (numberToZod k)
      else Throw (unsupportedBsonType k)
  end.

(** ** The refinements, on JS data *)

(** A JS value.  An object or an array is a reference: [ref] is the
    identity of the allocation, so that two values built by two object
    literals differ in [ref] even when their contents agree. *)
Inductive JsValue : Type :=
| JsUndefined
| JsNull
| JsBoolean (b : bool)
| JsNumber (n : Z)
| JsString (s : string)
| JsObject (ref : nat) (entries : list (string * JsValue))
| JsArray (ref : nat) (elements : list JsValue).

(** The equality of [Set] (SameValueZero): primitives by value, objects and
    arrays by identity. *)
Definition sameValueZero (x y : JsValue) : bool :=
  match x, y with
  | JsUndefined, JsUndefined => true
  | JsNull, JsNull => true
  | JsBoolean a, JsBoolean b => Bool.eqb a b
  | JsNumber a, JsNumber b => Z.eqb a b
  | JsString a, JsString b => String.eqb a b
  | JsObject a _, JsObject b _ => Nat.eqb a b
  | JsArray a _, JsArray b _ => Nat.eqb a b
  | _, _ => false
  end.

(** [new Set(items)], as the list of its elements in insertion order. *)
Definition newSet (items : list JsValue) : list JsValue :=
  fold_left
    (fun set item => if existsb (sameValueZero item) set then set
                     else set ++ [item])
    items [].

(** [(items) => new Set(items).size === items.length] *)
Definition uniqueItemsRefinement (items : list JsValue) : bool :=
  Nat.eqb (List.length (newSet items)) (List.length items).

(** [validateProperties], closed over the two bounds of [mongoSchema]. *)
Definition validateProperties (minProperties maxProperties : option Z)
  (obj : list (string * JsValue)) : bool :=
  let count := Z.of_nat (List.length (map fst obj)) in
  let minOk :=
    match minProperties with
    | None => true
    | Some bound => count >=? bound
    end in
  let maxOk :=
    match maxProperties with
    | None => true
    | Some bound => count <=? bound
    end in
  (minOk && maxOk)%bool.

(** Whether the check of an effect lets [data] through.  The base schema
    has parsed [data] before, so the array refinement sees an array and the
    object refinement an object; a transform checks nothing. *)
Definition effectAccepts (effect : ZodEffect) (data : JsValue) : bool :=
  match effect, data with
  | RefineUniqueItems, JsArray _ items => uniqueItemsRefinement items
  | SuperRefineProperties minP maxP, JsObject _ obj =>
      validateProperties minP maxP obj
  | _, _ => true
  end.

(** Equality of two values by content, whatever their identity. *)
Fixpoint valueEqual (x y : JsValue) : bool :=
  match x, y with
  | JsUndefined, JsUndefined => true
  | JsNull, JsNull => true
  | JsBoolean a, JsBoolean b => Bool.eqb a b
  | JsNumber a, JsNumber b => Z.eqb a b
  | JsString a, JsString b => String.eqb a b
  | JsObject _ ea, JsObject _ eb =>
      (fix entriesEqual ea eb :=
         match ea, eb with
         | [], [] => true
         | (ka, va) :: ra, (kb, vb) :: rb =>
             (String.eqb ka kb && valueEqual va vb && entriesEqual ra rb)%bool
         | _, _ => false
         end) ea eb
  | JsArray _ la, JsArray _ lb =>
      (fix elementsEqual la lb :=
         match la, lb with
         | [], [] => true
         | va :: ra, vb :: rb => (valueEqual va vb && elementsEqual ra rb)%bool
         | _, _ => false
         end) la lb
  | _, _ => false
  end.

(** ** The older converters *)

Module Legacy.

(** The body of [checks.forEach] in the number case of [zodToBson]. *)
Definition applyNumberCheck (numberSchema : Keywords) (check : ZodNumberCheck)
  : Keywords :=
  match check with
  | NumberMin value _ => set_minimum value numberSchema
  | NumberMax value _ => set_maximum value numberSchema
  | NumberMultipleOf value => set_multipleOf value numberSchema
  | _ => numberSchema
  end.

Definition isIntCheck (check : ZodNumberCheck) : bool :=
  match check with
  | NumberInt => true
  | _ => false
  end.

(** The number case of [zodToBson]. *)
Definition numberToBson (checks : list ZodNumberCheck) : Keywords :=
  let numberSchema := ofType "double" in
  let numberSchema :=
    if existsb isIntCheck checks then set_bsonType "int" numberSchema
    else numberSchema in
  fold_left applyNumberCheck checks numberSchema.

Fixpoint zodToBson (zodSchema : ZodType) : Result TMongoSchema :=
  match zodSchema with
  | ZodOptional innerType => zodToBson innerType
  | ZodNullable innerType => zodToBson innerType
  | ZodObject shape _ =>
      filled <- shapeToBson zodToBson shape [] [] ;;
      Ok (objectSchema (fst filled) (snd filled))
  | ZodArray element minLength maxLength =>
      items <- zodToBson element ;;
      Ok (arraySchema items minLength maxLength)
  | ZodString checks => Ok (node (stringToBson checks))
  | ZodNumber checks => Ok (node (numberToBson checks))
  | ZodBoolean => Ok (node (ofType "bool"))
  | ZodDate => Ok (node (ofType "date"))
  | ZodEnum values => Ok (node (set_enum values (ofType "string")))
  | ZodAny => Ok (node noKeywords)
  | _ => Throw (unsupportedZodType zodSchema)
  end.

(** [bsonToZod] has no [oneOf] case: a [oneOf] object has no [bsonType]. *)
Fixpoint bsonToZod (mongoSchema : TMongoSchema) : Result ZodType :=
  match mongoSchema with
  | OneOf _ => Throw (unsupportedBsonType noKeywords)
  | Schema k items properties additionalProperties =>
      if hasType k "array" then
        elementSchema <-
          match items with
          | Some (inr [single]) => bsonToZod single
          | Some (inr several) =>
              members <- mapM bsonToZod several ;;
              Ok (ZodUnion members)
          | Some (inl single) => bsonToZod single
          | None => Throw TypeError
          end ;;
        Ok (arrayToZod k elementSchema)
      else if hasType k "object" then
        match properties with
        | Some entries =>
            shape <- propertiesToZod bsonToZod
                       (match required k with Some r => r | None => [] end)
                       entries [] ;;
            Ok (objectToZod k additionalProperties shape)
        | None => Throw TypeError
        end
      else if hasType k "string" then Ok (stringToZod k)
      else if hasType k "bool" then Ok ZodBoolean
      else if hasType k "objectId" then
        Ok (ZodString [StringRegex "^[0-9a-fA-F]{24}$"])
      else if hasType k "date" then Ok ZodDate
      else if hasType k "uuid" then Ok (ZodString [StringUuid])
      else if hasType k "binData" then
        Ok (ZodEffects (ZodString []) TransformBase64)
      else if includesType numberTypes k then Ok (numberToZod k)
      else Throw (unsupportedBsonType k)
  end.

End Legacy.

(** ** Vocabulary of the statements *)

(** A string schema whose checks are all the ObjectId pattern (and that has
    one at least): the ObjectId pattern is its only constraint. *)
Definition onlyObjectIdPattern (checks : list ZodStringCheck) : Prop :=
  checks <> [] /\ Forall (fun check => check = StringRegex objectIdPattern) checks.

(** The names a BSON schema lists as required; none when the keyword is
    absent. *)
Definition requiredNames (k : Keywords) : list string :=
  match required k with
  | Some names => names
  | None => []
  end.

(** The keys of the fields of a shape that are not [ZodOptional], in order. *)
Definition nonOptionalKeys (shape : list (string * ZodType)) : list string :=
  map fst (filter (fun field => negb (isZodOptional (snd field))) shape).

(** Whether a Zod schema is the result of [refine] / [superRefine]. *)
Definition isRefined (zodSchema : ZodType) : bool :=
  match zodSchema with
  | ZodEffects _ RefineUniqueItems => true
  | ZodEffects _ (SuperRefineProperties _ _) => true
  | _ => false
  end.

(** [count] lies outside the interval of the two optional bounds. *)
Definition outsideBounds (minP maxP : option Z) (count : Z) : Prop :=
  (exists bound, minP = Some bound /\ count < bound) \/
  (exists bound, maxP = Some bound /\ bound < count).

(** The values of [bsonType] that [mongoSchemaToZod] has a case for. *)
Definition handledTypes : list string :=
  ["array"; "object"; "string"; "bool"; "objectId"; "date"; "uuid"; "binData"]
  ++ numberTypes.

(** The keyword of the string schema that a check assigns, if any. *)
Inductive StringKeyword : Type := KMinLength | KMaxLength | KPattern.

Definition writtenKeyword (check : ZodStringCheck) : option StringKeyword :=
  match check with
  | StringMin _ => Some KMinLength
  | StringMax _ => Some KMaxLength
  | StringRegex _ | StringEmail => Some KPattern
  | _ => None
  end.

(** The translation of a check is present in a string schema. *)
Definition appearsIn (check : ZodStringCheck) (k : Keywords) : Prop :=
  match check with
  | StringMin value => minLength k = Some value
  | StringMax value => maxLength k = Some value
  | StringRegex source => pattern k = Some source
  | StringEmail => pattern k = Some emailPattern
  | _ => True
  end.

(** No two elements of a list, at different positions, are equal for
    [sameValueZero]. *)
Fixpoint pairwiseDistinct (items : list JsValue) : bool :=
  match items with
  | [] => true
  | item :: rest =>
      (negb (existsb (sameValueZero item) rest) && pairwiseDistinct rest)%bool
  end.

(** The value of the last [min] check of a number schema, and of the last
    [max] check. *)
Definition lastMinimum (checks : list ZodNumberCheck) : option Z :=
  fold_left (fun found check =>
               match check with NumberMin value _ => Some value | _ => found end)
    checks None.

Definition lastMaximum (checks : list ZodNumberCheck) : option Z :=
  fold_left (fun found check =>
               match check with NumberMax value _ => Some value | _ => found end)
    checks None.

(** [bounded lo hi k]: [k] with [minimum] and [maximum] replaced by [lo] and
    [hi] where these are given. *)
Definition bounded (lo hi : option Z) (k : Keywords) : Keywords :=
  let k := match lo with Some value => set_minimum value k | None => k end in
  match hi with Some value => set_maximum value k | None => k end.

(** *** Sample schemas *)

(** [z.object({ a: z.string(), b: z.string().optional() })] *)
Definition sampleObject : ZodType :=
  ZodObject [("a", ZodString []); ("b", ZodOptional (ZodString []))] strip.

(** [{ bsonType: 'array', items: { bsonType: 'string' }, uniqueItems: true }] *)
Definition uniqueStrings : TMongoSchema :=
  Schema
    (mkKeywords (Some "array") None None None (Some true) None None None None
       None None None None None)
    (Some (inl (node (ofType "string")))) None None.

(** [{ bsonType: 'array', uniqueItems: true,
      items: { bsonType: 'object', properties: { a: { bsonType: 'int' } },
               required: ['a'] } }] *)
Definition uniqueObjects : TMongoSchema :=
  Schema
    (mkKeywords (Some "array") None None None (Some true) None None None None
       None None None None None)
    (Some (inl (Schema (set_required ["a"] (ofType "object")) None
                  (Some [("a", node (ofType "int"))]) None)))
    None None.

(** Two objects built by two evaluations of the literal [{ a: 1 }]. *)
Definition firstObject : JsValue := JsObject 1%nat [("a", JsNumber 1)].
Definition secondObject : JsValue := JsObject 2%nat [("a", JsNumber 1)].

(** [{ bsonType: 'object', properties: { a: { bsonType: 'string' } },
      minProperties: 1, maxProperties: 2 }] *)
Definition boundedObject : TMongoSchema :=
  Schema
    (mkKeywords (Some "object") None None None None None (Some 1) (Some 2)
       None None None None None None)
    None (Some [("a", node (ofType "string"))]) None.

(** *** Vocabulary of the further properties *)

(** The first element of a list on which [f] gives something. *)
Definition firstSome {A B : Type} (f : A -> option B) : list A -> option B :=
  fix first (xs : list A) : option B :=
    match xs with
    | [] => None
    | x :: rest =>
        match f x with
        | Some found => Some found
        | None => first rest
        end
    end.

(** The first node, in the order [zodToBsonSchema] visits a schema, whose
    class it has no case for. *)
Fixpoint firstUnsupported (zodSchema : ZodType) : option ZodType :=
  match zodSchema with
  | ZodOptional innerType | ZodNullable innerType => firstUnsupported innerType
  | ZodUnion options => firstSome firstUnsupported options
  | ZodObject shape _ =>
      firstSome (fun field => firstUnsupported (snd field)) shape
  | ZodRecord valueType => firstUnsupported valueType
  | ZodArray element _ _ => firstUnsupported element
  | ZodEffects _ _ | ZodOther _ => Some zodSchema
  | _ => None
  end.

(** The same for [zodToBson], which has fewer cases. *)
Fixpoint firstUnsupportedLegacy (zodSchema : ZodType) : option ZodType :=
  match zodSchema with
  | ZodOptional innerType | ZodNullable innerType =>
      firstUnsupportedLegacy innerType
  | ZodObject shape _ =>
      firstSome (fun field => firstUnsupportedLegacy (snd field)) shape
  | ZodArray element _ _ => firstUnsupportedLegacy element
  | ZodString _ | ZodNumber _ | ZodBoolean | ZodDate | ZodEnum _ | ZodAny => None
  | _ => Some zodSchema
  end.

(** The outcome of a conversion, given the first node it cannot convert. *)
Definition failsOnFirst {A : Type} (convert : ZodType -> Result A)
  (first : ZodType -> option ZodType) (zodSchema : ZodType) : Prop :=
  match first zodSchema with
  | Some unsupported => convert zodSchema = Throw (unsupportedZodType unsupported)
  | None => exists converted, convert zodSchema = Ok converted
  end.

(** [z.object({ id: z.string(), at: z.date().transform(...), n: z.bigint() })]:
    the second field is the first one without a case. *)
Definition sampleUnsupported : ZodType :=
  ZodObject [("id", ZodString []);
             ("at", ZodEffects ZodDate TransformBase64);
             ("n", ZodOther "ZodBigInt")] strip.





(** The object schema under a refinement, if there is one. *)
Definition withoutEffect (zodSchema : ZodType) : ZodType :=
  match zodSchema with
  | ZodEffects schema _ => schema
  | _ => zodSchema
  end.


(** The value of the last check of a string schema that assigns
    [minLength], [maxLength] and [pattern]. *)
Definition lastMinLength (checks : list ZodStringCheck) : option Z :=
  fold_left (fun found check =>
               match check with StringMin value => Some value | _ => found end)
    checks None.

Definition lastMaxLength (checks : list ZodStringCheck) : option Z :=
  fold_left (fun found check =>
               match check with StringMax value => Some value | _ => found end)
    checks None.

Definition lastPattern (checks : list ZodStringCheck) : option string :=
  fold_left (fun found check =>
               match check with
               | StringRegex source => Some source
               | StringEmail => Some emailPattern
               | _ => found
               end)
    checks None.

(** [{ bsonType: 'string', minLength, maxLength, pattern }], each of the
    three present when given. *)
Definition stringKeywords (lo hi : option Z) (pat : option string) : Keywords :=
  mkKeywords (Some "string") None None None None None None None lo hi pat
    None None None.

(** The value of the last [multipleOf] check of a number schema. *)
Definition lastMultipleOf (checks : list ZodNumberCheck) : option Z :=
  fold_left (fun found check =>
               match check with NumberMultipleOf value => Some value | _ => found end)
    checks None.

(** [{ bsonType, minimum, maximum, multipleOf }] *)
Definition numberKeywords (kind : string) (lo hi step : option Z) : Keywords :=
  mkKeywords (Some kind) None None None None None None None None None None
    lo hi step.

(** The two inclusive bound checks of a number schema that comes back. *)
Definition boundChecks (lo hi : option Z) : list ZodNumberCheck :=
  optionalCheck lo (fun value => NumberMin value true) ++
  optionalCheck hi (fun value => NumberMax value true).





(** The schema of the usage example:
    [z.object({ name: z.string().min(2), email: z.string().email(),
                age: z.number().int().positive(), isActive: z.boolean(),
                tags: z.array(z.string()).optional() })] *)
Definition userSchema : ZodType :=
  ZodObject
    [("name", ZodString [StringMin 2]);
     ("email", ZodString [StringEmail]);
     ("age", ZodNumber [NumberInt; NumberMin 0 false]);
     ("isActive", ZodBoolean);
     ("tags", ZodOptional (ZodArray (ZodString []) None None))]
    strip.





(** No [oneOf] in the places [mongoSchemaToZod] visits. *)
Fixpoint oneOfFree (mongoSchema : TMongoSchema) : bool :=
  match mongoSchema with
  | OneOf _ => false
  | Schema k items properties _ =>
      if hasType k "array" then
        match items with
        | Some (inl single) => oneOfFree single
        | Some (inr several) => forallb oneOfFree several
        | None => true
        end
      else if hasType k "object" then
        match properties with
        | Some entries => forallb (fun entry => oneOfFree (snd entry)) entries
        | None => true
        end
      else true
  end.

(** The schemas on which the two converters to BSON have the same case:
    no nullable, union, record, number, native enum or [undefined] in the
    places visited. *)
Fixpoint sameCases (zodSchema : ZodType) : bool :=
  match zodSchema with
  | ZodOptional innerType => sameCases innerType
  | ZodObject shape _ => forallb (fun field => sameCases (snd field)) shape
  | ZodArray element _ _ => sameCases element
  | ZodString _ | ZodBoolean | ZodDate | ZodEnum _ | ZodAny
  | ZodEffects _ _ | ZodOther _ => true
  | _ => false
  end.

(** A JS value that is not a reference. *)
Definition isPrimitive (value : JsValue) : bool :=
  match value with
  | JsObject _ _ | JsArray _ _ => false
  | _ => true
  end.

(** Every [bsonType] that occurs in a BSON schema, at any depth. *)
Fixpoint bsonTypesOf (mongoSchema : TMongoSchema) : list string :=
  match mongoSchema with
  | OneOf members => flat_map bsonTypesOf members
  | Schema k items properties additional =>
      match bsonType k with Some kind => [kind] | None => [] end ++
      match items with
      | Some (inl single) => bsonTypesOf single
      | Some (inr several) => flat_map bsonTypesOf several
      | None => []
      end ++
      match properties with
      | Some entries => flat_map (fun entry => bsonTypesOf (snd entry)) entries
      | None => []
      end ++
      match additional with
      | Some (inr schema) => bsonTypesOf schema
      | _ => []
      end
  end.

(** The types [zodToBsonSchema] writes, and those [zodToBson] writes. *)
Definition writtenTypes : list string :=
  ["object"; "array"; "string"; "objectId"; "bool"; "date"; "null";
   "int"; "long"; "double"; "decimal"].

Definition writtenTypesLegacy : list string :=
  ["object"; "array"; "string"; "objectId"; "bool"; "date"; "int"; "double"].

(** ** Properties *)

(** *** Generic facts *)

Lemma bind_Ok {A B : Type} (c : Result A) (k : A -> Result B) (b : B) :
  bind c k = Ok b -> exists a, c = Ok a /\ k a = Ok b.
Proof.
  destruct c as [a | e]; simpl; intros H.
  - exists a. split; [reflexivity | exact H].
  - discriminate H.
Qed.

Lemma bind_Throw {A B : Type} (c : Result A) (k : A -> Result B) (e : Exception) :
  bind c k = Throw e ->
  c = Throw e \/ exists a, c = Ok a /\ k a = Throw e.
Proof.
  destruct c as [a | e']; simpl; intros H.
  - right. exists a. split; [reflexivity | exact H].
  - left. injection H as ->. reflexivity.
Qed.

Lemma mapM_length {A B : Type} (f : A -> Result B) (xs : list A) (ys : list B) :
  mapM f xs = Ok ys -> List.length ys = List.length xs.
Proof.
  revert ys. induction xs as [| x rest IH]; simpl; intros ys H.
  - injection H as <-. reflexivity.
  - apply bind_Ok in H. destruct H as [y [_ H]].
    apply bind_Ok in H. destruct H as [ys' [Hrest H]].
    injection H as <-. simpl. f_equal. apply IH. exact Hrest.
Qed.

(** [mapM] converts member by member, in order. *)
Lemma mapM_Forall2 {A B : Type} (f : A -> Result B) (xs : list A) (ys : list B) :
  mapM f xs = Ok ys <-> Forall2 (fun x y => f x = Ok y) xs ys.
Proof.
  revert ys. induction xs as [| x rest IH]; simpl; intros ys; split; intros H.
  - injection H as <-. constructor.
  - inversion H. reflexivity.
  - apply bind_Ok in H. destruct H as [y [Hy H]].
    apply bind_Ok in H. destruct H as [ys' [Hrest H]].
    injection H as <-. constructor; [exact Hy | apply IH; exact Hrest].
  - inversion H as [| x' y xs' ys' Hy Hrest]; subst.
    rewrite Hy. simpl. apply IH in Hrest. rewrite Hrest. reflexivity.
Qed.

Lemma hasType_Some (k : Keywords) (kind other : string) :
  bsonType k = Some kind -> hasType k other = String.eqb kind other.
Proof. unfold hasType. intros ->. reflexivity. Qed.

(** *** The ObjectId pattern *)

Lemma stringToBson_objectId (checks : list ZodStringCheck) :
  existsb isObjectIdCheck checks = true ->
  stringToBson checks = ofType "objectId".
Proof. unfold stringToBson. intros ->. reflexivity. Qed.

(** C1. A string schema whose only constraint is the ObjectId pattern is
    converted by [zodToBsonSchema] to the bare schema [{bsonType:
    'objectId'}], without length or pattern keyword, and [mongoSchemaToZod]
    converts that schema to a string schema with exactly the ObjectId
    pattern as its check, which is not the unconstrained string schema. *)
Theorem objectId_pattern_special_case (checks : list ZodStringCheck) :
  onlyObjectIdPattern checks ->
  zodToBsonSchema (ZodString checks) = Ok (node (ofType "objectId")) /\
  mongoSchemaToZod (node (ofType "objectId")) =
    Ok (ZodString [StringRegex objectIdPattern]) /\
  ZodString [StringRegex objectIdPattern] <> ZodString [].
Proof.
  intros [Hne Hall]. split; [| split].
  - simpl. rewrite stringToBson_objectId; [reflexivity |].
    destruct checks as [| check rest]; [congruence |].
    inversion Hall as [| ? ? Hcheck _]; subst. reflexivity.
  - reflexivity.
  - discriminate.
Qed.

Lemma objectId_pattern_special_case_witness :
  onlyObjectIdPattern [StringRegex objectIdPattern] /\
  zodToBsonSchema (ZodString [StringRegex objectIdPattern]) =
    Ok (node (ofType "objectId")) /\
  mongoSchemaToZod (node (ofType "objectId")) =
    Ok (ZodString [StringRegex objectIdPattern]) /\
  ZodString [StringRegex objectIdPattern] <> ZodString [].
Proof.
  assert (H : onlyObjectIdPattern [StringRegex objectIdPattern]).
  { split; [discriminate | repeat constructor]. }
  split; [exact H | exact (objectId_pattern_special_case _ H)].
Defined.

(** The early return looks for the pattern among the checks: the other
    checks of such a schema are dropped. *)
Example objectId_pattern_among_other_checks :
  zodToBsonSchema (ZodString [StringMin 2; StringRegex objectIdPattern]) =
    Ok (node (ofType "objectId")).
Proof. reflexivity. Qed.

(** The older converter agrees: its ObjectId case writes the same pattern
    as a literal. *)
Lemma legacy_objectId_pattern :
  Legacy.bsonToZod (node (ofType "objectId")) = mongoSchemaToZod (node (ofType "objectId")).
Proof. reflexivity. Qed.

(** *** Required fields of an object *)

(** The loop appends to [required] the keys of the fields that are not
    [ZodOptional], whatever the conversion of the values is. *)
Lemma shapeToBson_required (convert : ZodType -> Result TMongoSchema)
  (shape : list (string * ZodType)) :
  forall properties required properties' required',
    shapeToBson convert shape properties required = Ok (properties', required') ->
    required' = required ++ nonOptionalKeys shape.
Proof.
  induction shape as [| [key value] rest IH]; simpl;
    intros properties required properties' required' H.
  - injection H as _ <-. unfold nonOptionalKeys. simpl.
    rewrite app_nil_r. reflexivity.
  - apply bind_Ok in H. destruct H as [converted [_ H]].
    apply IH in H. subst required'. unfold nonOptionalKeys. simpl.
    destruct (isZodOptional value); simpl.
    + reflexivity.
    + rewrite <- app_assoc. reflexivity.
Qed.

(** The loop converts every field, in order, under its own key. *)
Lemma shapeToBson_properties (convert : ZodType -> Result TMongoSchema)
  (shape : list (string * ZodType)) :
  forall properties required properties' required',
    shapeToBson convert shape properties required = Ok (properties', required') ->
    exists converted,
      properties' = properties ++ converted /\
      Forall2 (fun field entry =>
                 fst entry = fst field /\ convert (snd field) = Ok (snd entry))
        shape converted.
Proof.
  induction shape as [| [key value] rest IH]; simpl;
    intros properties required properties' required' H.
  - injection H as <- _. exists []. rewrite app_nil_r. split; constructor.
  - apply bind_Ok in H. destruct H as [converted [Hvalue H]].
    apply IH in H. destruct H as [others [-> Hothers]].
    exists ((key, converted) :: others). split.
    + rewrite <- app_assoc. reflexivity.
    + constructor; [split; [reflexivity | exact Hvalue] | exact Hothers].
Qed.

Lemma In_nonOptionalKeys (shape : list (string * ZodType)) (key : string) :
  In key (nonOptionalKeys shape) <->
  exists value, In (key, value) shape /\ isZodOptional value = false.
Proof.
  unfold nonOptionalKeys. rewrite in_map_iff. split.
  - intros [[key' value] [Hkey Hin]]. simpl in Hkey. subst key'.
    apply filter_In in Hin. destruct Hin as [Hin Hopt]. simpl in Hopt.
    exists value. split; [exact Hin |]. destruct (isZodOptional value);
      [discriminate | reflexivity].
  - intros [value [Hin Hopt]]. exists (key, value). split; [reflexivity |].
    apply filter_In. split; [exact Hin |]. simpl. rewrite Hopt. reflexivity.
Qed.

(** C6. In the BSON schema that [zodToBsonSchema] gives for an object, the
    [required] list holds the keys of exactly the fields whose schema is not
    a [ZodOptional], in the order of the fields; a field wrapped in
    [ZodNullable] is therefore listed. *)
Theorem object_required_fields (shape : list (string * ZodType))
  (unknownKeys : UnknownKeys) (k : Keywords)
  (items : option (TMongoSchema + list TMongoSchema))
  (properties : option (list (string * TMongoSchema)))
  (additional : option (bool + TMongoSchema)) :
  zodToBsonSchema (ZodObject shape unknownKeys) =
    Ok (Schema k items properties additional) ->
  requiredNames k = nonOptionalKeys shape /\
  (forall key, In key (requiredNames k) <->
     exists value, In (key, value) shape /\ isZodOptional value = false) /\
  (forall key inner, In (key, ZodNullable inner) shape -> In key (requiredNames k)).
Proof.
  simpl. intros H. apply bind_Ok in H. destruct H as [[props names] [Hloop H]].
  apply shapeToBson_required in Hloop. cbn [fst snd app] in Hloop, H.
  assert (Hnames : requiredNames k = names).
  { injection H as H _ _ _. rewrite <- H. destruct names; reflexivity. }
  rewrite Hnames, Hloop.
  split; [reflexivity | split].
  - intros key. apply In_nonOptionalKeys.
  - intros key inner Hin. apply In_nonOptionalKeys.
    exists (ZodNullable inner). split; [exact Hin | reflexivity].
Qed.

(** The object [{a: string, b: optional(string)}]: [required] is [["a"]]. *)
Lemma object_required_fields_witness :
  exists k properties,
    zodToBsonSchema sampleObject = Ok (Schema k None properties None) /\
    required k = Some ["a"] /\
    requiredNames k = ["a"].
Proof.
  eexists. eexists. split; [reflexivity |]. split; [reflexivity |].
  refine (proj1 (object_required_fields
                   [("a", ZodString []); ("b", ZodOptional (ZodString []))]
                   strip _ None _ None _)).
  reflexivity.
Defined.

(** A nullable field is required, an optional one is not. *)
Example nullable_field_is_required :
  exists k properties,
    zodToBsonSchema
      (ZodObject [("a", ZodNullable (ZodString []));
                  ("b", ZodOptional (ZodNullable (ZodString [])))] strip) =
      Ok (Schema k None properties None) /\
    required k = Some ["a"].
Proof. eexists. eexists. split; reflexivity. Qed.

(** The conversion of an object succeeds as soon as that of every field
    does. *)
Lemma shapeToBson_total (convert : ZodType -> Result TMongoSchema)
  (shape : list (string * ZodType)) :
  Forall (fun field => exists converted, convert (snd field) = Ok converted) shape ->
  forall properties required,
    exists filled, shapeToBson convert shape properties required = Ok filled.
Proof.
  induction 1 as [| [key value] rest [converted Hvalue] _ IH]; simpl;
    intros properties required.
  - eexists. reflexivity.
  - simpl in Hvalue. rewrite Hvalue. simpl. apply IH.
Qed.

(** *** The validator *)

(** C8. When [zodToBsonSchema] succeeds on a schema, [createMongoValidator]
    returns an object with the single key [$jsonSchema], whose value is the
    result of [zodToBsonSchema] on that schema; and [createMongoValidator]
    throws only what [zodToBsonSchema] throws. *)
Theorem createMongoValidator_single_key (zodSchema : ZodType) :
  (forall descriptor, zodToBsonSchema zodSchema = Ok descriptor ->
     createMongoValidator zodSchema = Ok [("$jsonSchema", descriptor)] /\
     forall validator, createMongoValidator zodSchema = Ok validator ->
       map fst validator = ["$jsonSchema"]) /\
  (forall e, createMongoValidator zodSchema = Throw e <->
             zodToBsonSchema zodSchema = Throw e).
Proof.
  unfold createMongoValidator. split.
  - intros descriptor ->. simpl. split; [reflexivity |].
    intros validator H. injection H as <-. reflexivity.
  - intros e. destruct (zodToBsonSchema zodSchema) as [d | e']; simpl;
      split; intros H; try discriminate H; injection H as ->; reflexivity.
Qed.

Lemma createMongoValidator_single_key_witness :
  exists descriptor,
    zodToBsonSchema sampleObject = Ok descriptor /\
    createMongoValidator sampleObject = Ok [("$jsonSchema", descriptor)].
Proof.
  eexists. split; [reflexivity |].
  exact (proj1 (proj1 (createMongoValidator_single_key sampleObject) _ eq_refl)).
Defined.

(** *** Unsupported BSON types *)

Lemma eqb_not_In (kind other : string) (kinds : list string) :
  ~ In kind kinds -> In other kinds -> String.eqb kind other = false.
Proof.
  intros Hnot Hin. apply String.eqb_neq. intros ->. exact (Hnot Hin).
Qed.

(** C9. A BSON schema whose [bsonType] is none of the types
    [mongoSchemaToZod] has a case for (so [timestamp], [regex], [mixed],
    [null]) makes [mongoSchemaToZod] throw the error "Unsupported BSON
    type: " followed by that type; no Zod schema is returned. *)
Theorem unsupported_bson_type (k : Keywords) (kind : string)
  (items : option (TMongoSchema + list TMongoSchema))
  (properties : option (list (string * TMongoSchema)))
  (additional : option (bool + TMongoSchema)) :
  bsonType k = Some kind ->
  ~ In kind handledTypes ->
  mongoSchemaToZod (Schema k items properties additional) =
    Throw (Error ("Unsupported BSON type: " ++ kind)%string).
Proof.
  intros Hk Hnot.
  assert (Hne : forall other, In other handledTypes -> hasType k other = false).
  { intros other Hin. rewrite (hasType_Some _ _ _ Hk).
    exact (eqb_not_In _ _ _ Hnot Hin). }
  assert (Hnum : includesType numberTypes k = false).
  { unfold includesType. rewrite Hk. apply not_true_is_false. intros H.
    apply existsb_exists in H. destruct H as [other [Hin Heq]].
    apply String.eqb_eq in Heq. subst other.
    apply Hnot. unfold handledTypes. apply in_or_app. right. exact Hin. }
  simpl.
  rewrite !Hne by (unfold handledTypes; simpl; tauto).
  rewrite Hnum. unfold unsupportedBsonType. rewrite Hk. reflexivity.
Qed.

Lemma unsupported_bson_type_witness :
  mongoSchemaToZod (node (ofType "timestamp")) =
    Throw (Error "Unsupported BSON type: timestamp").
Proof.
  apply (unsupported_bson_type (ofType "timestamp") "timestamp" None None None).
  - reflexivity.
  - unfold handledTypes, numberTypes. simpl. intros H.
    repeat (destruct H as [H | H]; [discriminate H |]). exact H.
Defined.

Example unsupported_regex_mixed_null :
  mongoSchemaToZod (node (ofType "regex")) =
    Throw (Error "Unsupported BSON type: regex") /\
  mongoSchemaToZod (node (ofType "mixed")) =
    Throw (Error "Unsupported BSON type: mixed") /\
  mongoSchemaToZod (node (ofType "null")) =
    Throw (Error "Unsupported BSON type: null").
Proof. repeat split. Qed.

(** Of the types of [TBsonTypes], four have no case. *)
Lemma unsupported_TBsonTypes :
  filter (fun kind => negb (existsb (String.eqb kind) handledTypes)) TBsonTypes =
    ["null"; "regex"; "timestamp"; "mixed"].
Proof. reflexivity. Qed.

(** A schema without [bsonType], such as the [{}] that [zodToBsonSchema]
    gives for [z.any()], is reported as [undefined]. *)
Example unsupported_empty_schema :
  mongoSchemaToZod (node noKeywords) =
    Throw (Error "Unsupported BSON type: undefined").
Proof. reflexivity. Qed.

(** An unsupported type anywhere below fails the whole conversion. *)
Example unsupported_type_in_property :
  mongoSchemaToZod
    (Schema (ofType "object") None
       (Some [("a", node (ofType "string")); ("t", node (ofType "timestamp"))])
       None) =
    Throw (Error "Unsupported BSON type: timestamp").
Proof. reflexivity. Qed.

(** *** Nullable schemas *)

(** C10. When [zodToBsonSchema] converts a [ZodNullable] schema, the result
    is a [oneOf] of the schema [{bsonType: 'null'}] and the converted inner
    schema, and [mongoSchemaToZod] on that result throws "Unsupported BSON
    type: null": a nullable schema does not convert back. *)
Theorem nullable_does_not_convert_back (innerType : ZodType)
  (descriptor : TMongoSchema) :
  zodToBsonSchema (ZodNullable innerType) = Ok descriptor ->
  (exists innerSchema,
     zodToBsonSchema innerType = Ok innerSchema /\
     descriptor = OneOf [node (ofType "null"); innerSchema]) /\
  (exists members,
     descriptor = OneOf members /\ In (node (ofType "null")) members) /\
  mongoSchemaToZod descriptor = Throw (Error "Unsupported BSON type: null").
Proof.
  simpl. intros H. apply bind_Ok in H. destruct H as [innerSchema [Hinner H]].
  injection H as <-. split; [| split].
  - exists innerSchema. split; [exact Hinner | reflexivity].
  - eexists. split; [reflexivity | left; reflexivity].
  - reflexivity.
Qed.

Lemma nullable_does_not_convert_back_witness :
  zodToBsonSchema (ZodNullable (ZodString [])) =
    Ok (OneOf [node (ofType "null"); node (ofType "string")]) /\
  mongoSchemaToZod (OneOf [node (ofType "null"); node (ofType "string")]) =
    Throw (Error "Unsupported BSON type: null").
Proof.
  split; [reflexivity |].
  exact (proj2 (proj2 (nullable_does_not_convert_back (ZodString []) _ eq_refl))).
Defined.

(** The nullable schema is converted whenever its inner schema is. *)
Lemma nullable_converts (innerType : ZodType) (innerSchema : TMongoSchema) :
  zodToBsonSchema innerType = Ok innerSchema ->
  zodToBsonSchema (ZodNullable innerType) =
    Ok (OneOf [node (ofType "null"); innerSchema]).
Proof. simpl. intros ->. reflexivity. Qed.

(** *** The property-count refinement of an object *)

Lemma hasType_true (k : Keywords) (kind : string) :
  hasType k kind = true -> bsonType k = Some kind.
Proof.
  unfold hasType. destruct (bsonType k) as [t |]; [| discriminate].
  intros H. apply String.eqb_eq in H. subst t. reflexivity.
Qed.

(** [validateProperties] fails exactly on the objects whose number of
    entries is below the lower bound or above the upper one. *)
Lemma validateProperties_false (minP maxP : option Z)
  (obj : list (string * JsValue)) :
  validateProperties minP maxP obj = false <->
  outsideBounds minP maxP (Z.of_nat (List.length obj)).
Proof.
  unfold validateProperties, outsideBounds. rewrite length_map.
  set (count := Z.of_nat (List.length obj)).
  destruct minP as [lo |], maxP as [hi |]; simpl;
    rewrite ?andb_false_iff, ?andb_true_r, ?Z.geb_leb, ?Z.leb_gt; split;
    try (intros [H | H]); try intros H;
    try discriminate H;
    repeat match goal with
      | H : exists _, _ |- _ => destruct H as [? [Heq H]]; inversion Heq; subst
      | H : (_ <=? _) = false |- _ => apply Z.leb_gt in H
      end;
    try (left; eexists; split; [reflexivity | lia]);
    try (right; eexists; split; [reflexivity | lia]);
    try (left; apply Z.leb_gt; lia);
    try (right; apply Z.leb_gt; lia);
    try (apply Z.leb_gt; lia);
    try lia.
Qed.

(** C7. For a BSON schema of type [object] that [mongoSchemaToZod] converts,
    the result is the object schema itself when neither [minProperties] nor
    [maxProperties] is present, and that object schema under the
    property-count refinement when one of them is; the refinement fails on
    an object exactly when its number of entries is below [minProperties] or
    above [maxProperties], an absent bound allowing everything. *)
Theorem property_count_refinement (k : Keywords)
  (items : option (TMongoSchema + list TMongoSchema))
  (properties : option (list (string * TMongoSchema)))
  (additional : option (bool + TMongoSchema)) (zodSchema : ZodType) :
  hasType k "object" = true ->
  mongoSchemaToZod (Schema k items properties additional) = Ok zodSchema ->
  (isRefined zodSchema = true <->
     minProperties k <> None \/ maxProperties k <> None) /\
  (exists shape unknownKeys,
     (minProperties k = None /\ maxProperties k = None /\
      zodSchema = ZodObject shape unknownKeys) \/
     zodSchema = ZodEffects (ZodObject shape unknownKeys)
                   (SuperRefineProperties (minProperties k) (maxProperties k))) /\
  (forall ref obj,
     effectAccepts (SuperRefineProperties (minProperties k) (maxProperties k))
       (JsObject ref obj) = false <->
     outsideBounds (minProperties k) (maxProperties k)
       (Z.of_nat (List.length obj))).
Proof.
  intros Hobject H. pose proof (hasType_true _ _ Hobject) as Hk.
  cbn [mongoSchemaToZod] in H.
  rewrite (hasType_Some _ _ "array" Hk), Hobject in H. simpl in H.
  destruct properties as [entries |]; [| discriminate H].
  apply bind_Ok in H. destruct H as [shape [_ H]].
  injection H as <-. unfold objectToZod.
  split; [| split].
  - destruct (minProperties k), (maxProperties k); simpl; split; intros H;
      try reflexivity; try discriminate H;
      try (left; discriminate); try (right; discriminate).
    destruct H as [H | H]; congruence.
  - eexists. eexists.
    destruct (minProperties k), (maxProperties k);
      try (right; reflexivity).
    left. repeat split.
  - intros ref obj. simpl. apply validateProperties_false.
Qed.

(** The schema with one optional property [a] and between 1 and 2
    properties: the converted schema is refined, rejects the empty object
    and accepts an object with one field. *)
Lemma property_count_refinement_witness :
  exists zodSchema,
    mongoSchemaToZod boundedObject = Ok zodSchema /\
    isRefined zodSchema = true /\
    effectAccepts (SuperRefineProperties (Some 1) (Some 2)) (JsObject 0%nat []) = false /\
    effectAccepts (SuperRefineProperties (Some 1) (Some 2))
      (JsObject 0%nat [("a", JsString "x")]) = true.
Proof.
  eexists. split; [reflexivity |].
  pose proof (property_count_refinement
                (mkKeywords (Some "object") None None None None None (Some 1)
                   (Some 2) None None None None None None)
                None (Some [("a", node (ofType "string"))]) None _
                eq_refl eq_refl) as [Hrefined [_ Hfails]].
  split; [| split].
  - apply Hrefined. left. discriminate.
  - apply (Hfails 0%nat []). left. exists 1. split; [reflexivity | simpl; lia].
  - reflexivity.
Defined.

(** The object case succeeds as soon as every property converts. *)
Lemma propertiesToZod_total (convert : TMongoSchema -> Result ZodType)
  (required : list string) (entries : list (string * TMongoSchema)) :
  Forall (fun entry => exists schema, convert (snd entry) = Ok schema) entries ->
  forall shape, exists shape',
    propertiesToZod convert required entries shape = Ok shape'.
Proof.
  induction 1 as [| [key value] rest [schema Hvalue] _ IH]; simpl; intros shape.
  - eexists. reflexivity.
  - simpl in Hvalue. rewrite Hvalue. simpl. apply IH.
Qed.

Lemma object_converts (k : Keywords)
  (items : option (TMongoSchema + list TMongoSchema))
  (entries : list (string * TMongoSchema))
  (additional : option (bool + TMongoSchema)) :
  hasType k "object" = true ->
  Forall (fun entry => exists schema, mongoSchemaToZod (snd entry) = Ok schema)
    entries ->
  exists shape,
    mongoSchemaToZod (Schema k items (Some entries) additional) =
      Ok (objectToZod k additional shape).
Proof.
  intros Hobject Hentries. pose proof (hasType_true _ _ Hobject) as Hk.
  cbn [mongoSchemaToZod].
  rewrite (hasType_Some _ _ "array" Hk), Hobject. simpl.
  destruct (propertiesToZod_total mongoSchemaToZod
              (match required k with Some r => r | None => [] end)
              entries Hentries []) as [shape Hshape].
  exists shape. unfold propertiesToZod in Hshape |- *. rewrite Hshape.
  reflexivity.
Qed.

(** Without bounds no refinement is attached. *)
Example no_bounds_no_refinement :
  mongoSchemaToZod
    (Schema (ofType "object") None (Some [("a", node (ofType "string"))]) None) =
    Ok (ZodObject [("a", ZodOptional (ZodString []))] passthrough).
Proof. reflexivity. Qed.

(** *** The [oneOf] case *)

(** [mongoSchemaToZod] converts the members of a [oneOf] in order and
    always returns the union of the results. *)
Lemma oneOf_is_union (members : list TMongoSchema) (schemas : list ZodType) :
  Forall2 (fun member schema => mongoSchemaToZod member = Ok schema)
    members schemas ->
  mongoSchemaToZod (OneOf members) = Ok (ZodUnion schemas).
Proof.
  intros H. apply mapM_Forall2 in H. cbn [mongoSchemaToZod].
  unfold mapM in H |- *. rewrite H. reflexivity.
Qed.

Lemma oneOf_single_member (member : TMongoSchema) (schema : ZodType) :
  mongoSchemaToZod member = Ok schema ->
  mongoSchemaToZod (OneOf [member]) = Ok (ZodUnion [schema]).
Proof.
  intros H. apply oneOf_is_union. constructor; [exact H | constructor].
Qed.

(** C5, on the schema [{ oneOf: [{ bsonType: 'string' }] }].  Its one
    member converts to the string schema, yet [mongoSchemaToZod] returns
    the union of that single schema, not the schema itself; the array case
    does unwrap an [items] list of length 1. *)
Theorem oneOf_single_member_is_wrapped :
  mongoSchemaToZod (node (ofType "string")) = Ok (ZodString []) /\
  mongoSchemaToZod (OneOf [node (ofType "string")]) =
    Ok (ZodUnion [ZodString []]) /\
  mongoSchemaToZod (OneOf [node (ofType "string")]) <>
    mongoSchemaToZod (node (ofType "string")) /\
  mongoSchemaToZod
    (Schema (ofType "array") (Some (inr [node (ofType "string")])) None None) =
    Ok (ZodArray (ZodString []) None None).
Proof. repeat split. discriminate. Qed.

(** *** Numbers *)

Lemma applyNumberCheck_multipleOf (check : ZodNumberCheck)
  (oneOf : list Keywords) :
  Forall (fun type => multipleOf type = None) oneOf ->
  Forall (fun type => multipleOf type = None) (applyNumberCheck oneOf check).
Proof.
  intros H. destruct check; simpl; try exact H.
  - apply Forall_map. eapply Forall_impl; [| exact H]. intros type Ht. exact Ht.
  - apply Forall_map. eapply Forall_impl; [| exact H]. intros type Ht. exact Ht.
  - apply Forall_forall. intros type Hin. apply filter_In in Hin.
    destruct Hin as [Hin _]. rewrite Forall_forall in H. apply H. exact Hin.
Qed.

(** Whatever the checks of a number schema are, no alternative given by
    [zodToBsonSchema] has a [multipleOf] keyword. *)
Lemma number_alternatives_no_multipleOf (checks : list ZodNumberCheck) :
  Forall (fun type => multipleOf type = None)
    (fold_left applyNumberCheck checks numbers).
Proof.
  assert (H : Forall (fun type => multipleOf type = None) numbers)
    by (repeat constructor).
  revert H. generalize numbers. induction checks as [| check rest IH];
    simpl; intros oneOf H.
  - exact H.
  - apply IH. apply applyNumberCheck_multipleOf. exact H.
Qed.

Lemma set_minimum_bounded (value : Z) (lo hi : option Z) (k : Keywords) :
  set_minimum value (bounded lo hi k) = bounded (Some value) hi k.
Proof. destruct lo, hi; reflexivity. Qed.

Lemma set_maximum_bounded (value : Z) (lo hi : option Z) (k : Keywords) :
  set_maximum value (bounded lo hi k) = bounded lo (Some value) k.
Proof. destruct lo, hi; reflexivity. Qed.

Lemma isIntOrLong_bounded (lo hi : option Z) (k : Keywords) :
  isIntOrLong (bounded lo hi k) = isIntOrLong k.
Proof. destruct lo, hi; reflexivity. Qed.

Lemma filter_map_bounded (lo hi : option Z) (base : list Keywords) :
  filter isIntOrLong (map (bounded lo hi) base) =
  map (bounded lo hi) (filter isIntOrLong base).
Proof.
  induction base as [| k rest IH]; simpl; [reflexivity |].
  rewrite isIntOrLong_bounded. destruct (isIntOrLong k); simpl; rewrite IH;
    reflexivity.
Qed.

Lemma filter_idempotent {A : Type} (f : A -> bool) (l : list A) :
  filter f (filter f l) = filter f l.
Proof.
  induction l as [| x rest IH]; simpl; [reflexivity |].
  destruct (f x) eqn:Hx; simpl; rewrite ?Hx, IH; reflexivity.
Qed.

Lemma applyNumberCheck_fold (checks : list ZodNumberCheck) :
  forall (lo hi : option Z) (base : list Keywords),
    fold_left applyNumberCheck checks (map (bounded lo hi) base) =
    map (bounded
           (fold_left (fun found check =>
                         match check with NumberMin value _ => Some value | _ => found end)
              checks lo)
           (fold_left (fun found check =>
                         match check with NumberMax value _ => Some value | _ => found end)
              checks hi))
      (if existsb Legacy.isIntCheck checks then filter isIntOrLong base else base).
Proof.
  induction checks as [| check rest IH]; intros lo hi base.
  - reflexivity.
  - destruct check as [value inclusive | value inclusive | | value | kind];
      cbn [fold_left applyNumberCheck existsb Legacy.isIntCheck orb].
    + rewrite map_map.
      rewrite (map_ext _ (bounded (Some value) hi))
        by (intros k; apply set_minimum_bounded).
      apply IH.
    + rewrite map_map.
      rewrite (map_ext _ (bounded lo (Some value)))
        by (intros k; apply set_maximum_bounded).
      apply IH.
    + rewrite filter_map_bounded, IH.
      destruct (existsb Legacy.isIntCheck rest);
        rewrite ?filter_idempotent; reflexivity.
    + apply IH.
    + apply IH.
Qed.

(** What the number case of [zodToBsonSchema] does do: the alternatives are
    [int], [long], [double] and [decimal], or [int] and [long] alone when
    the schema has an [int] check, and each of them gets the value of the
    last [min] check as [minimum] and of the last [max] check as [maximum]. *)
Lemma number_alternatives (checks : list ZodNumberCheck) :
  zodToBsonSchema (ZodNumber checks) =
    Ok (OneOf
          (map node
             (map (bounded (lastMinimum checks) (lastMaximum checks))
                (if existsb Legacy.isIntCheck checks
                 then [ofType "int"; ofType "long"]
                 else numbers)))).
Proof.
  cbn [zodToBsonSchema]. unfold numberToBson, lastMinimum, lastMaximum.
  change [ofType "int"; ofType "long"] with (filter isIntOrLong numbers).
  rewrite <- (applyNumberCheck_fold checks None None numbers).
  reflexivity.
Qed.

(** C3, on the schema [z.number().multipleOf(5)].  [zodToBsonSchema] gives
    the four numeric alternatives, none of which has a [multipleOf] keyword:
    the constraint is dropped.  The older [zodToBson] copies it. *)
Theorem multipleOf_is_not_copied :
  zodToBsonSchema (ZodNumber [NumberMultipleOf 5]) =
    Ok (OneOf [node (ofType "int"); node (ofType "long");
               node (ofType "double"); node (ofType "decimal")]) /\
  Forall (fun type => multipleOf type = None)
    (fold_left applyNumberCheck [NumberMultipleOf 5] numbers) /\
  Legacy.zodToBson (ZodNumber [NumberMultipleOf 5]) =
    Ok (node (set_multipleOf 5 (ofType "double"))) /\
  mongoSchemaToZod (node (set_multipleOf 5 (ofType "double"))) =
    Ok (ZodNumber [NumberMultipleOf 5]).
Proof.
  split; [reflexivity | split; [| split; reflexivity]].
  apply number_alternatives_no_multipleOf.
Qed.

(** The narrowing by [int] and the copy of the bounds, on
    [z.number().min(1).int().max(9)]. *)
Example number_int_with_bounds :
  zodToBsonSchema (ZodNumber [NumberMin 1 true; NumberInt; NumberMax 9 true]) =
    Ok (OneOf [node (set_maximum 9 (set_minimum 1 (ofType "int")));
               node (set_maximum 9 (set_minimum 1 (ofType "long")))]).
Proof. reflexivity. Qed.

(** *** Strings *)

Lemma applyStringCheck_appears (check : ZodStringCheck) (k : Keywords) :
  appearsIn check (applyStringCheck k check).
Proof. destruct check; simpl; auto. Qed.

(** A check that assigns another keyword leaves the translation of
    [check] in place. *)
Lemma applyStringCheck_preserves (check later : ZodStringCheck) (k : Keywords) :
  writtenKeyword later <> writtenKeyword check ->
  appearsIn check k ->
  appearsIn check (applyStringCheck k later).
Proof.
  destruct check, later; simpl; intros Hother H;
    solve [exact H | exact I | congruence].
Qed.

Lemma fold_applyStringCheck_preserves (check : ZodStringCheck)
  (after : list ZodStringCheck) :
  Forall (fun later => writtenKeyword later <> writtenKeyword check) after ->
  forall k, appearsIn check k ->
            appearsIn check (fold_left applyStringCheck after k).
Proof.
  induction 1 as [| later rest Hlater _ IH]; simpl; intros k H.
  - exact H.
  - apply IH. apply applyStringCheck_preserves; assumption.
Qed.

Lemma fold_applyStringCheck_bsonType (checks : list ZodStringCheck) :
  forall k, bsonType (fold_left applyStringCheck checks k) = bsonType k.
Proof.
  induction checks as [| check rest IH]; simpl; intros k; [reflexivity |].
  rewrite IH. destruct check; reflexivity.
Qed.

(** C4, as the code has it.  For a string schema without the ObjectId
    pattern, [zodToBsonSchema] gives a schema of type [string] in which the
    translation of a check ([min] as [minLength], [max] as [maxLength],
    [regex] as [pattern], [email] as the fixed e-mail [pattern]) is present
    whenever no later check of the schema assigns the same keyword.  So
    checks on different keywords all appear; of a [regex] and an [email]
    check, which share [pattern], the later one appears. *)
Theorem string_constraints_compose (before after : list ZodStringCheck)
  (check : ZodStringCheck) :
  existsb isObjectIdCheck (before ++ check :: after) = false ->
  Forall (fun later => writtenKeyword later <> writtenKeyword check) after ->
  exists stringSchema,
    zodToBsonSchema (ZodString (before ++ check :: after)) =
      Ok (node stringSchema) /\
    bsonType stringSchema = Some "string" /\
    appearsIn check stringSchema.
Proof.
  intros Hid Hafter. cbn [zodToBsonSchema]. unfold stringToBson.
  rewrite Hid. eexists. split; [reflexivity | split].
  - apply fold_applyStringCheck_bsonType.
  - rewrite fold_left_app. cbn [fold_left].
    apply fold_applyStringCheck_preserves; [exact Hafter |].
    apply applyStringCheck_appears.
Qed.

(** [z.string().min(2).regex(/^a/).email().max(9)]: the e-mail pattern is
    in the result (and so are both lengths). *)
Lemma string_constraints_compose_witness :
  exists stringSchema,
    zodToBsonSchema
      (ZodString [StringMin 2; StringRegex "^a"; StringEmail; StringMax 9]) =
      Ok (node stringSchema) /\
    bsonType stringSchema = Some "string" /\
    pattern stringSchema = Some emailPattern.
Proof.
  apply (string_constraints_compose [StringMin 2; StringRegex "^a"]
           [StringMax 9] StringEmail).
  - reflexivity.
  - repeat constructor. discriminate.
Defined.

(** C4, as the claim has it, fails: with a [regex] check followed by an
    [email] check the pattern of the [regex] check is not in the result. *)
Lemma string_constraints_not_all_kept :
  ~ (forall checks stringSchema,
       existsb isObjectIdCheck checks = false ->
       zodToBsonSchema (ZodString checks) = Ok (node stringSchema) ->
       Forall (fun check => appearsIn check stringSchema) checks).
Proof.
  intros H.
  specialize (H [StringRegex "^a"; StringEmail] _ eq_refl eq_refl).
  inversion H as [| ? ? Hregex _]. simpl in Hregex. discriminate Hregex.
Qed.

Example regex_then_email :
  zodToBsonSchema (ZodString [StringRegex "^a"; StringEmail]) =
    Ok (node (set_pattern emailPattern (ofType "string"))) /\
  zodToBsonSchema (ZodString [StringEmail; StringRegex "^a"]) =
    Ok (node (set_pattern "^a" (ofType "string"))).
Proof. split; reflexivity. Qed.

(** *** The uniqueness refinement of an array *)

Lemma sameValueZero_sym (x y : JsValue) : sameValueZero x y = sameValueZero y x.
Proof.
  destruct x, y; simpl; try reflexivity.
  - destruct b, b0; reflexivity.
  - apply Z.eqb_sym.
  - apply String.eqb_sym.
  - apply Nat.eqb_sym.
  - apply Nat.eqb_sym.
Qed.

(** The step of [new Set(items)]: adding one item to the set built so far. *)
Lemma newSet_length_le (items : list JsValue) :
  forall set,
    (List.length
       (fold_left (fun set item => if existsb (sameValueZero item) set then set
                                   else set ++ [item]) items set)
     <= List.length set + List.length items)%nat.
Proof.
  induction items as [| item rest IH]; simpl; intros set; [lia |].
  destruct (existsb (sameValueZero item) set).
  - specialize (IH set). lia.
  - specialize (IH (set ++ [item])). rewrite length_app in IH. simpl in IH. lia.
Qed.

Lemma newSet_length_eq (items : list JsValue) :
  forall set,
    Nat.eqb
      (List.length
         (fold_left (fun set item => if existsb (sameValueZero item) set then set
                                     else set ++ [item]) items set))
      (List.length set + List.length items) =
    (pairwiseDistinct items &&
     forallb (fun item => negb (existsb (sameValueZero item) set)) items)%bool.
Proof.
  induction items as [| item rest IH]; intros set.
  - simpl. rewrite Nat.add_0_r. apply Nat.eqb_refl.
  - cbn [fold_left pairwiseDistinct forallb List.length].
    destruct (existsb (sameValueZero item) set) eqn:Hin.
    + simpl. rewrite andb_false_r. apply Nat.eqb_neq.
      pose proof (newSet_length_le rest set). lia.
    + replace (List.length set + S (List.length rest))%nat
        with (List.length (set ++ [item]) + List.length rest)%nat
        by (rewrite length_app; simpl; lia).
      rewrite IH. simpl negb at 2.
      assert (Hrest :
        forallb (fun other => negb (existsb (sameValueZero other) (set ++ [item]))) rest =
        (forallb (fun other => negb (existsb (sameValueZero other) set)) rest &&
         negb (existsb (sameValueZero item) rest))%bool).
      { clear. induction rest as [| other rest IH]; simpl.
        - reflexivity.
        - rewrite IH, existsb_app. simpl. rewrite orb_false_r.
          rewrite (sameValueZero_sym item other).
          destruct (existsb (sameValueZero other) set),
            (sameValueZero other item),
            (forallb (fun other => negb (existsb (sameValueZero other) set)) rest),
            (existsb (sameValueZero item) rest); reflexivity. }
      rewrite Hrest.
      destruct (existsb (sameValueZero item) rest), (pairwiseDistinct rest),
        (forallb (fun other => negb (existsb (sameValueZero other) set)) rest);
        reflexivity.
Qed.

(** What the refinement does: it accepts a list exactly when no two of its
    elements are equal for [sameValueZero], the equality of [Set]. *)
Lemma uniqueItemsRefinement_pairwiseDistinct (items : list JsValue) :
  uniqueItemsRefinement items = pairwiseDistinct items.
Proof.
  unfold uniqueItemsRefinement, newSet.
  change (List.length items) with (List.length (@nil JsValue) + List.length items)%nat.
  rewrite newSet_length_eq.
  assert (H : forallb (fun item => negb (existsb (sameValueZero item) [])) items = true).
  { apply forallb_forall. reflexivity. }
  rewrite H. apply andb_true_r.
Qed.

(** The array case attaches the refinement when [uniqueItems] is [true]. *)
Lemma uniqueItems_refined (k : Keywords) (elementSchema : ZodType) :
  uniqueItems k = Some true ->
  arrayToZod k elementSchema =
    ZodEffects (ZodArray elementSchema (minItems k) (maxItems k)) RefineUniqueItems.
Proof. unfold arrayToZod. intros ->. reflexivity. Qed.

Example unique_strings :
  mongoSchemaToZod uniqueStrings =
    Ok (ZodEffects (ZodArray (ZodString []) None None) RefineUniqueItems) /\
  effectAccepts RefineUniqueItems (JsArray 0%nat [JsString "x"; JsString "y"]) = true /\
  effectAccepts RefineUniqueItems (JsArray 0%nat [JsString "x"; JsString "x"]) = false.
Proof. repeat split. Qed.

(** C2, on an array of objects.  The schema converted from [uniqueObjects]
    carries the uniqueness refinement, and the refinement accepts the array
    of two objects that are equal by content but are two allocations: [Set]
    compares objects by identity.  [bsonToZod] attaches the same
    refinement. *)
Theorem uniqueItems_accepts_equal_objects :
  mongoSchemaToZod uniqueObjects =
    Ok (ZodEffects
          (ZodArray (ZodObject [("a", ZodNumber [NumberInt])] passthrough) None None)
          RefineUniqueItems) /\
  Legacy.bsonToZod uniqueObjects = mongoSchemaToZod uniqueObjects /\
  valueEqual firstObject secondObject = true /\
  sameValueZero firstObject secondObject = false /\
  effectAccepts RefineUniqueItems (JsArray 0%nat [firstObject; secondObject]) = true.
Proof. repeat split. Qed.

(** ** Further properties of the converters *)

(** *** Induction on schemas *)

Lemma ZodType_nested_ind (P : ZodType -> Prop) :
  (forall inner, P inner -> P (ZodOptional inner)) ->
  (forall inner, P inner -> P (ZodNullable inner)) ->
  P ZodUndefined ->
  (forall options, Forall P options -> P (ZodUnion options)) ->
  (forall shape unknownKeys,
     Forall (fun field => P (snd field)) shape -> P (ZodObject shape unknownKeys)) ->
  (forall valueType, P valueType -> P (ZodRecord valueType)) ->
  (forall element lo hi, P element -> P (ZodArray element lo hi)) ->
  (forall checks, P (ZodString checks)) ->
  (forall checks, P (ZodNumber checks)) ->
  P ZodBoolean -> P ZodDate ->
  (forall values, P (ZodEnum values)) ->
  (forall values, P (ZodNativeEnum values)) ->
  P ZodAny ->
  (forall schema effect, P schema -> P (ZodEffects schema effect)) ->
  (forall name, P (ZodOther name)) ->
  forall zodSchema, P zodSchema.
Proof.
  intros Hopt Hnull Hundef Hunion Hobj Hrec Harr Hstr Hnum Hbool Hdate Henum
    Hnative Hany Heff Hother.
  fix IH 1. intros [inner | inner | | options | shape uk | valueType
                   | element lo hi | checks | checks | | | values | values |
                   | schema effect | name].
  - apply Hopt, IH.
  - apply Hnull, IH.
  - exact Hundef.
  - apply Hunion. induction options as [| option rest IHrest];
      constructor; [apply IH | exact IHrest].
  - apply Hobj. induction shape as [| [key value] rest IHrest];
      constructor; [apply IH | exact IHrest].
  - apply Hrec, IH.
  - apply Harr, IH.
  - apply Hstr.
  - apply Hnum.
  - exact Hbool.
  - exact Hdate.
  - apply Henum.
  - apply Hnative.
  - exact Hany.
  - apply Heff, IH.
  - apply Hother.
Qed.

Lemma TMongoSchema_nested_ind (P : TMongoSchema -> Prop) :
  (forall members, Forall P members -> P (OneOf members)) ->
  (forall k items properties additional,
     match items with
     | Some (inl single) => P single
     | Some (inr several) => Forall P several
     | None => True
     end ->
     match properties with
     | Some entries => Forall (fun entry => P (snd entry)) entries
     | None => True
     end ->
     match additional with
     | Some (inr schema) => P schema
     | _ => True
     end ->
     P (Schema k items properties additional)) ->
  forall mongoSchema, P mongoSchema.
Proof.
  intros HoneOf Hschema. fix IH 1.
  intros [members | k items properties additional].
  - apply HoneOf. induction members as [| member rest IHrest];
      constructor; [apply IH | exact IHrest].
  - apply Hschema.
    + destruct items as [[single | several] |]; [apply IH | | exact I].
      induction several as [| member rest IHrest];
        constructor; [apply IH | exact IHrest].
    + destruct properties as [entries |]; [| exact I].
      induction entries as [| [key value] rest IHrest];
        constructor; [apply IH | exact IHrest].
    + destruct additional as [[flag | schema] |]; [exact I | apply IH | exact I].
Qed.

(** *** Which schemas [zodToBsonSchema] converts *)

Lemma mapM_failsOnFirst {A : Type} (convert : ZodType -> Result A)
  (first : ZodType -> option ZodType) (options : list ZodType) :
  Forall (failsOnFirst convert first) options ->
  match firstSome first options with
  | Some unsupported => mapM convert options = Throw (unsupportedZodType unsupported)
  | None => exists converted, mapM convert options = Ok converted
  end.
Proof.
  unfold failsOnFirst.
  induction 1 as [| option rest Hoption _ IH]; simpl.
  - eexists. reflexivity.
  - destruct (first option) as [unsupported |].
    + rewrite Hoption. reflexivity.
    + destruct Hoption as [converted ->]. simpl.
      destruct (firstSome first rest) as [unsupported |].
      * rewrite IH. reflexivity.
      * destruct IH as [others IH]. rewrite IH. eexists. reflexivity.
Qed.

Lemma shapeToBson_failsOnFirst (convert : ZodType -> Result TMongoSchema)
  (first : ZodType -> option ZodType) (shape : list (string * ZodType)) :
  Forall (fun field => failsOnFirst convert first (snd field)) shape ->
  forall properties required,
    match firstSome (fun field => first (snd field)) shape with
    | Some unsupported =>
        shapeToBson convert shape properties required =
          Throw (unsupportedZodType unsupported)
    | None =>
        exists filled, shapeToBson convert shape properties required = Ok filled
    end.
Proof.
  unfold failsOnFirst.
  induction 1 as [| [key value] rest Hvalue _ IH]; simpl; intros properties required.
  - eexists. reflexivity.
  - simpl in Hvalue. destruct (first value) as [unsupported |].
    + rewrite Hvalue. reflexivity.
    + destruct Hvalue as [converted ->]. simpl. apply IH.
Qed.

Lemma zodToBsonSchema_failsOnFirst (zodSchema : ZodType) :
  failsOnFirst zodToBsonSchema firstUnsupported zodSchema.
Proof.
  induction zodSchema as
    [inner IH | inner IH | | options IH | shape uk IH | valueType IH
    | element lo hi IH | checks | checks | | | values | values |
    | schema effect _ | name] using ZodType_nested_ind;
    unfold failsOnFirst in *; cbn [firstUnsupported zodToBsonSchema];
    try (eexists; reflexivity); try reflexivity.
  - exact IH.
  - destruct (firstUnsupported inner).
    + rewrite IH. reflexivity.
    + destruct IH as [converted ->]. eexists. reflexivity.
  - pose proof (mapM_failsOnFirst zodToBsonSchema firstUnsupported options IH) as H.
    destruct (firstSome firstUnsupported options).
    + rewrite H. reflexivity.
    + destruct H as [converted ->]. eexists. reflexivity.
  - pose proof (shapeToBson_failsOnFirst zodToBsonSchema firstUnsupported shape IH [] [])
      as H.
    destruct (firstSome (fun field => firstUnsupported (snd field)) shape).
    + rewrite H. reflexivity.
    + destruct H as [converted ->]. eexists. reflexivity.
  - destruct (firstUnsupported valueType).
    + rewrite IH. reflexivity.
    + destruct IH as [converted ->]. eexists. reflexivity.
  - destruct (firstUnsupported element).
    + rewrite IH. reflexivity.
    + destruct IH as [converted ->]. eexists. reflexivity.
Qed.

Lemma zodToBson_failsOnFirst (zodSchema : ZodType) :
  failsOnFirst Legacy.zodToBson firstUnsupportedLegacy zodSchema.
Proof.
  induction zodSchema as
    [inner IH | inner IH | | options IH | shape uk IH | valueType IH
    | element lo hi IH | checks | checks | | | values | values |
    | schema effect _ | name] using ZodType_nested_ind;
    unfold failsOnFirst in *; cbn [firstUnsupportedLegacy Legacy.zodToBson];
    try (eexists; reflexivity); try reflexivity.
  - exact IH.
  - exact IH.
  - pose proof (shapeToBson_failsOnFirst Legacy.zodToBson firstUnsupportedLegacy
                  shape IH [] []) as H.
    destruct (firstSome (fun field => firstUnsupportedLegacy (snd field)) shape).
    + rewrite H. reflexivity.
    + destruct H as [converted ->]. eexists. reflexivity.
  - destruct (firstUnsupportedLegacy element).
    + rewrite IH. reflexivity.
    + destruct IH as [converted ->]. eexists. reflexivity.
Qed.

Lemma firstSome_In {A B : Type} (f : A -> option B) (xs : list A) (found : B) :
  firstSome f xs = Some found -> exists x, In x xs /\ f x = Some found.
Proof.
  induction xs as [| x rest IH]; simpl; [discriminate |].
  destruct (f x) as [b |] eqn:Hx.
  - intros H. injection H as <-. exists x. split; [left; reflexivity | exact Hx].
  - intros H. destruct (IH H) as [y [Hin Hy]]. exists y.
    split; [right; exact Hin | exact Hy].
Qed.

(** The node found is a [ZodEffects] or a schema of another class. *)
Lemma firstUnsupported_class (zodSchema unsupported : ZodType) :
  firstUnsupported zodSchema = Some unsupported ->
  (exists schema effect, unsupported = ZodEffects schema effect) \/
  (exists name, unsupported = ZodOther name).
Proof.
  induction zodSchema as
    [inner IH | inner IH | | options IH | shape uk IH | valueType IH
    | element lo hi IH | checks | checks | | | values | values |
    | schema effect _ | name] using ZodType_nested_ind;
    cbn [firstUnsupported]; try discriminate; try exact IH.
  - intros H. apply firstSome_In in H. destruct H as [option [Hin H]].
    rewrite Forall_forall in IH. exact (IH option Hin H).
  - intros H. apply firstSome_In in H. destruct H as [field [Hin H]].
    rewrite Forall_forall in IH. exact (IH field Hin H).
  - intros H. injection H as <-. left. eexists. eexists. reflexivity.
  - intros H. injection H as <-. right. eexists. reflexivity.
Qed.

(** X1. [zodToBsonSchema] converts a schema exactly when it meets no
    [ZodEffects] and no schema of a class it has no case for; otherwise it
    throws "Unsupported Zod type: " with the class name of the first such
    node in the order of the traversal, and never anything else. *)
Theorem zodToBsonSchema_outcome (zodSchema : ZodType) :
  (firstUnsupported zodSchema = None <->
   exists descriptor, zodToBsonSchema zodSchema = Ok descriptor) /\
  (forall e, zodToBsonSchema zodSchema = Throw e ->
     exists unsupported,
       firstUnsupported zodSchema = Some unsupported /\
       e = Error ("Unsupported Zod type: " ++ constructorName unsupported)%string /\
       ((exists schema effect, unsupported = ZodEffects schema effect) \/
        (exists name, unsupported = ZodOther name))).
Proof.
  pose proof (zodToBsonSchema_failsOnFirst zodSchema) as H.
  unfold failsOnFirst in H.
  destruct (firstUnsupported zodSchema) as [unsupported |] eqn:Hfirst.
  - split.
    + split; [discriminate |]. intros [descriptor Hd]. congruence.
    + intros e He. exists unsupported. split; [reflexivity |]. split.
      * rewrite H in He. injection He as <-. reflexivity.
      * exact (firstUnsupported_class _ _ Hfirst).
  - split.
    + split; [intros _; exact H | reflexivity].
    + intros e He. destruct H as [descriptor Hd]. congruence.
Qed.

Lemma zodToBsonSchema_outcome_witness :
  zodToBsonSchema sampleUnsupported =
    Throw (Error "Unsupported Zod type: ZodEffects") /\
  exists unsupported,
    firstUnsupported sampleUnsupported = Some unsupported /\
    Error "Unsupported Zod type: ZodEffects" =
      Error ("Unsupported Zod type: " ++ constructorName unsupported)%string /\
    ((exists schema effect, unsupported = ZodEffects schema effect) \/
     (exists name, unsupported = ZodOther name)).
Proof.
  split; [reflexivity |].
  exact (proj2 (zodToBsonSchema_outcome sampleUnsupported) _ eq_refl).
Defined.

(** X2. [zodToBson] has no case for unions, records, native enums and
    [undefined] either: it converts a schema exactly when it meets none of
    these, no [ZodEffects] and no other class, and otherwise throws
    "Unsupported Zod type: " with the class name of the first such node. *)
Theorem zodToBson_outcome (zodSchema : ZodType) :
  (firstUnsupportedLegacy zodSchema = None <->
   exists descriptor, Legacy.zodToBson zodSchema = Ok descriptor) /\
  (forall e, Legacy.zodToBson zodSchema = Throw e ->
     exists unsupported,
       firstUnsupportedLegacy zodSchema = Some unsupported /\
       e = Error ("Unsupported Zod type: " ++ constructorName unsupported)%string).
Proof.
  pose proof (zodToBson_failsOnFirst zodSchema) as H.
  unfold failsOnFirst in H.
  destruct (firstUnsupportedLegacy zodSchema) as [unsupported |] eqn:Hfirst.
  - split.
    + split; [discriminate |]. intros [descriptor Hd]. congruence.
    + intros e He. exists unsupported. split; [reflexivity |].
      rewrite H in He. injection He as <-. reflexivity.
  - split.
    + split; [intros _; exact H | reflexivity].
    + intros e He. destruct H as [descriptor Hd]. congruence.
Qed.

Lemma zodToBson_outcome_witness :
  exists unsupported,
    firstUnsupportedLegacy
      (ZodObject [("a", ZodString []); ("u", ZodUnion [ZodString []; ZodBoolean])]
         strip) = Some unsupported /\
    Error "Unsupported Zod type: ZodUnion" =
      Error ("Unsupported Zod type: " ++ constructorName unsupported)%string.
Proof.
  exact (proj2 (zodToBson_outcome
                  (ZodObject [("a", ZodString []);
                              ("u", ZodUnion [ZodString []; ZodBoolean])] strip))
           _ eq_refl).
Defined.

(** *** Which schemas [mongoSchemaToZod] converts *)









(** *** Objects *)




(** X5. The [required] keyword of the BSON schema of an object is never the
    empty list: it is left out exactly when every field is a
    [ZodOptional], so in particular for the empty object. *)
Theorem zodToBsonSchema_required_not_empty (shape : list (string * ZodType))
  (unknownKeys : UnknownKeys) (k : Keywords)
  (items : option (TMongoSchema + list TMongoSchema))
  (properties : option (list (string * TMongoSchema)))
  (additional : option (bool + TMongoSchema)) :
  zodToBsonSchema (ZodObject shape unknownKeys) =
    Ok (Schema k items properties additional) ->
  required k <> Some [] /\
  (required k = None <->
   forallb (fun field => isZodOptional (snd field)) shape = true).
Proof.
  cbn [zodToBsonSchema]. intros H. apply bind_Ok in H.
  destruct H as [[entries names] [Hloop H]].
  apply shapeToBson_required in Hloop. cbn [fst snd app] in Hloop, H.
  injection H as Hk _ _ _. subst k names.
  assert (Hnames : nonOptionalKeys shape = [] <->
                   forallb (fun field => isZodOptional (snd field)) shape = true).
  { unfold nonOptionalKeys. clear. induction shape as [| [key value] rest IH]; simpl.
    - split; reflexivity.
    - destruct (isZodOptional value); simpl; [exact IH |].
      split; discriminate. }
  destruct (nonOptionalKeys shape) as [| name names] eqn:Hkeys; simpl.
  - split; [discriminate |]. split; [intros _; apply Hnames; reflexivity | reflexivity].
  - split; [discriminate |]. split; [discriminate |].
    intros H. apply Hnames in H. discriminate H.
Qed.

Lemma zodToBsonSchema_required_not_empty_witness :
  exists k entries,
    zodToBsonSchema (ZodObject [("b", ZodOptional (ZodString []))] strip) =
      Ok (Schema k None (Some entries) None) /\
    required k = None.
Proof.
  eexists. eexists. split; [reflexivity |].
  refine (proj2 (proj2 (zodToBsonSchema_required_not_empty
                          [("b", ZodOptional (ZodString []))] strip _ None _ None _)) _);
    reflexivity.
Defined.














(** X8. A record never converts back: [zodToBsonSchema] gives it an object
    schema with the converted value schema under [additionalProperties]
    and without [properties], on which [mongoSchemaToZod] throws a
    [TypeError]. *)
Theorem record_does_not_convert_back (valueType : ZodType)
  (descriptor : TMongoSchema) :
  zodToBsonSchema (ZodRecord valueType) = Ok descriptor ->
  (exists valueSchema,
     zodToBsonSchema valueType = Ok valueSchema /\
     descriptor = Schema (ofType "object") None None (Some (inr valueSchema))) /\
  mongoSchemaToZod descriptor = Throw TypeError.
Proof.
  cbn [zodToBsonSchema]. intros H. apply bind_Ok in H.
  destruct H as [valueSchema [Hvalue H]]. injection H as <-. split.
  - exists valueSchema. split; [exact Hvalue | reflexivity].
  - reflexivity.
Qed.

Lemma record_does_not_convert_back_witness :
  zodToBsonSchema (ZodRecord (ZodString [])) =
    Ok (Schema (ofType "object") None None (Some (inr (node (ofType "string"))))) /\
  mongoSchemaToZod
    (Schema (ofType "object") None None (Some (inr (node (ofType "string"))))) =
    Throw TypeError.
Proof.
  split; [reflexivity |].
  exact (proj2 (record_does_not_convert_back (ZodString []) _ eq_refl)).
Defined.

(** *** Strings and numbers in closed form *)

Lemma fold_applyStringCheck_keywords (checks : list ZodStringCheck) :
  forall t e mi ma u r mp xp lo hi pat mn mx mo,
    fold_left applyStringCheck checks
      (mkKeywords t e mi ma u r mp xp lo hi pat mn mx mo) =
    mkKeywords t e mi ma u r mp xp
      (fold_left (fun found check =>
                    match check with StringMin value => Some value | _ => found end)
         checks lo)
      (fold_left (fun found check =>
                    match check with StringMax value => Some value | _ => found end)
         checks hi)
      (fold_left (fun found check =>
                    match check with
                    | StringRegex source => Some source
                    | StringEmail => Some emailPattern
                    | _ => found
                    end)
         checks pat)
      mn mx mo.
Proof.
  induction checks as [| check rest IH]; intros; [reflexivity |].
  destruct check; cbn [fold_left applyStringCheck]; apply IH.
Qed.

(** The string case of both converters, in closed form. *)
Lemma stringToBson_keywords (checks : list ZodStringCheck) :
  existsb isObjectIdCheck checks = false ->
  stringToBson checks =
    stringKeywords (lastMinLength checks) (lastMaxLength checks)
      (lastPattern checks).
Proof.
  unfold stringToBson. intros ->. apply fold_applyStringCheck_keywords.
Qed.

Lemma fold_applyNumberCheck_keywords (checks : list ZodNumberCheck) :
  forall t e mi ma u r mp xp lo hi pat mn mx mo,
    fold_left Legacy.applyNumberCheck checks
      (mkKeywords t e mi ma u r mp xp lo hi pat mn mx mo) =
    mkKeywords t e mi ma u r mp xp lo hi pat
      (fold_left (fun found check =>
                    match check with NumberMin value _ => Some value | _ => found end)
         checks mn)
      (fold_left (fun found check =>
                    match check with NumberMax value _ => Some value | _ => found end)
         checks mx)
      (fold_left (fun found check =>
                    match check with NumberMultipleOf value => Some value | _ => found end)
         checks mo).
Proof.
  induction checks as [| check rest IH]; intros; [reflexivity |].
  destruct check; cbn [fold_left Legacy.applyNumberCheck]; apply IH.
Qed.

Lemma legacy_numberToBson_keywords (checks : list ZodNumberCheck) :
  Legacy.numberToBson checks =
    numberKeywords (if existsb Legacy.isIntCheck checks then "int" else "double")
      (lastMinimum checks) (lastMaximum checks) (lastMultipleOf checks).
Proof.
  unfold Legacy.numberToBson.
  destruct (existsb Legacy.isIntCheck checks);
    apply fold_applyNumberCheck_keywords.
Qed.

(** X9. [zodToBson] gives a number the type [int] when the schema has an
    [int] check and [double] otherwise, never [long] or [decimal], with
    the values of the last [min], [max] and [multipleOf] checks; whether a
    bound is inclusive is not recorded.  The schema [bsonToZod] gives back
    has at most these four checks, in this order, with inclusive bounds. *)
Theorem legacy_number_round_trip (checks : list ZodNumberCheck) :
  Legacy.zodToBson (ZodNumber checks) =
    Ok (node (numberKeywords
                (if existsb Legacy.isIntCheck checks then "int" else "double")
                (lastMinimum checks) (lastMaximum checks) (lastMultipleOf checks))) /\
  Legacy.bsonToZod
    (node (numberKeywords
             (if existsb Legacy.isIntCheck checks then "int" else "double")
             (lastMinimum checks) (lastMaximum checks) (lastMultipleOf checks))) =
    Ok (ZodNumber
          ((if existsb Legacy.isIntCheck checks then [NumberInt] else []) ++
           boundChecks (lastMinimum checks) (lastMaximum checks) ++
           optionalCheck (lastMultipleOf checks) NumberMultipleOf)).
Proof.
  split.
  - cbn [Legacy.zodToBson]. rewrite legacy_numberToBson_keywords. reflexivity.
  - destruct (existsb Legacy.isIntCheck checks), (lastMinimum checks),
      (lastMaximum checks), (lastMultipleOf checks); reflexivity.
Qed.

(** [z.number().int().positive()]: the exclusive bound comes back
    inclusive. *)
Example legacy_positive_becomes_min :
  Legacy.zodToBson (ZodNumber [NumberInt; NumberMin 0 false]) =
    Ok (node (numberKeywords "int" (Some 0) None None)) /\
  Legacy.bsonToZod (node (numberKeywords "int" (Some 0) None None)) =
    Ok (ZodNumber [NumberInt; NumberMin 0 true]).
Proof. split; reflexivity. Qed.

(** X10. A number never comes back as a number from [zodToBsonSchema] and
    [mongoSchemaToZod]: the round trip always succeeds and gives a union of
    number schemas, one per alternative ([int], [long], [double],
    [decimal], or the first two when the schema has an [int] check), those
    of [int] and [long] with an [int] check, all with the last [min] and
    [max] values as inclusive bounds and without [multipleOf]. *)
Theorem number_round_trip (checks : list ZodNumberCheck) :
  exists descriptor,
    zodToBsonSchema (ZodNumber checks) = Ok descriptor /\
    mongoSchemaToZod descriptor =
      Ok (ZodUnion
            (let bounds := boundChecks (lastMinimum checks) (lastMaximum checks) in
             [ZodNumber (NumberInt :: bounds); ZodNumber (NumberInt :: bounds)] ++
             if existsb Legacy.isIntCheck checks then []
             else [ZodNumber bounds; ZodNumber bounds])).
Proof.
  eexists. split; [apply number_alternatives |].
  destruct (existsb Legacy.isIntCheck checks), (lastMinimum checks),
    (lastMaximum checks); reflexivity.
Qed.

(** *** Stability of the round trip *)




Lemma mongoSchemaToZod_arraySchema (items : TMongoSchema) (lo hi : option Z) :
  mongoSchemaToZod (arraySchema items lo hi) =
    (element <- mongoSchemaToZod items ;; Ok (ZodArray element lo hi)).
Proof. destruct lo, hi; reflexivity. Qed.















(** With a number the BSON schema is not stable: the union that comes back
    converts to a [oneOf] of [oneOf]s. *)
Example number_round_trip_not_stable :
  exists descriptor zodSchema',
    zodToBsonSchema (ZodNumber []) = Ok descriptor /\
    mongoSchemaToZod descriptor = Ok zodSchema' /\
    zodToBsonSchema zodSchema' <> Ok descriptor.
Proof.
  eexists. eexists. split; [reflexivity |]. split; [reflexivity |]. discriminate.
Qed.

(** *** Which schemas make the round trip *)






Lemma numberToBson_alternatives (checks : list ZodNumberCheck) :
  numberToBson checks =
    OneOf (map node
             (map (bounded (lastMinimum checks) (lastMaximum checks))
                (if existsb Legacy.isIntCheck checks
                 then [ofType "int"; ofType "long"]
                 else numbers))).
Proof.
  unfold numberToBson, lastMinimum, lastMaximum.
  change [ofType "int"; ofType "long"] with (filter isIntOrLong numbers).
  rewrite <- (applyNumberCheck_fold checks None None numbers).
  reflexivity.
Qed.




(** *** The two pairs of converters compared *)

Lemma mapM_ext_Forall {A B : Type} (f g : A -> Result B) (xs : list A) :
  Forall (fun x => f x = g x) xs -> mapM f xs = mapM g xs.
Proof.
  induction 1 as [| x rest Hx _ IH]; simpl; [reflexivity |].
  rewrite Hx, IH. reflexivity.
Qed.

Lemma propertiesToZod_ext (f g : TMongoSchema -> Result ZodType)
  (required : list string) (entries : list (string * TMongoSchema)) :
  Forall (fun entry => f (snd entry) = g (snd entry)) entries ->
  forall shape,
    propertiesToZod f required entries shape =
    propertiesToZod g required entries shape.
Proof.
  induction 1 as [| [key value] rest Hvalue _ IH]; simpl; intros shape;
    [reflexivity |].
  simpl in Hvalue. rewrite Hvalue. destruct (g value); simpl; [apply IH | reflexivity].
Qed.

Lemma shapeToBson_ext (f g : ZodType -> Result TMongoSchema)
  (shape : list (string * ZodType)) :
  Forall (fun field => f (snd field) = g (snd field)) shape ->
  forall properties required,
    shapeToBson f shape properties required =
    shapeToBson g shape properties required.
Proof.
  induction 1 as [| [key value] rest Hvalue _ IH]; simpl; intros properties required;
    [reflexivity |].
  simpl in Hvalue. rewrite Hvalue. destruct (g value); simpl; [apply IH | reflexivity].
Qed.

Lemma Forall_forallb_impl {A : Type} (p : A -> bool) (P : A -> Prop)
  (xs : list A) :
  Forall (fun x => p x = true -> P x) xs -> forallb p xs = true -> Forall P xs.
Proof.
  induction 1 as [| x rest Hx _ IH]; simpl; intros H; constructor.
  - apply Hx. apply andb_true_iff in H. exact (proj1 H).
  - apply IH. apply andb_true_iff in H. exact (proj2 H).
Qed.

(** X14. On a BSON schema that has no [oneOf] in the places visited,
    [bsonToZod] and [mongoSchemaToZod] agree: the same Zod schema or the
    same exception. *)
Theorem bsonToZod_agrees (mongoSchema : TMongoSchema) :
  oneOfFree mongoSchema = true ->
  Legacy.bsonToZod mongoSchema = mongoSchemaToZod mongoSchema.
Proof.
  induction mongoSchema as [members IH | k items properties additional IHi IHp _]
    using TMongoSchema_nested_ind; cbn [oneOfFree]; intros Hfree;
    [discriminate Hfree |].
  cbn [Legacy.bsonToZod mongoSchemaToZod].
  destruct (hasType k "array").
  { destruct items as [[single | several] |].
    - rewrite (IHi Hfree). reflexivity.
    - pose proof (Forall_forallb_impl _ _ _ IHi Hfree) as Hall.
      destruct several as [| first [| second rest]].
      + reflexivity.
      + inversion Hall as [| ? ? Hfirst _]; subst. rewrite Hfirst. reflexivity.
      + rewrite (mapM_ext_Forall _ _ _ Hall). reflexivity.
    - reflexivity. }
  destruct (hasType k "object"); [| reflexivity].
  destruct properties as [entries |]; [| reflexivity].
  pose proof (Forall_forallb_impl (fun entry => oneOfFree (snd entry))
                (fun entry => Legacy.bsonToZod (snd entry) = mongoSchemaToZod (snd entry))
                entries IHp Hfree) as Hall.
  rewrite (propertiesToZod_ext _ _ _ _ Hall). reflexivity.
Qed.

Lemma bsonToZod_agrees_witness :
  Legacy.bsonToZod boundedObject = mongoSchemaToZod boundedObject /\
  Legacy.bsonToZod (OneOf [node (ofType "string")]) <>
    mongoSchemaToZod (OneOf [node (ofType "string")]).
Proof.
  split; [exact (bsonToZod_agrees boundedObject eq_refl) | discriminate].
Defined.

(** X15. On a Zod schema without nullable, union, record, number, native
    enum and [undefined] in the places visited, [zodToBson] and
    [zodToBsonSchema] agree: the same BSON schema or the same exception. *)
Theorem zodToBson_agrees (zodSchema : ZodType) :
  sameCases zodSchema = true ->
  Legacy.zodToBson zodSchema = zodToBsonSchema zodSchema.
Proof.
  induction zodSchema as
    [inner IH | inner IH | | options IH | shape uk IH | valueType IH
    | element lo hi IH | checks | checks | | | values | values |
    | schema effect _ | name] using ZodType_nested_ind;
    cbn [sameCases]; intros Hsame; try discriminate Hsame;
    cbn [Legacy.zodToBson zodToBsonSchema]; try reflexivity.
  - exact (IH Hsame).
  - pose proof (Forall_forallb_impl (fun field => sameCases (snd field))
                  (fun field => Legacy.zodToBson (snd field) = zodToBsonSchema (snd field))
                  shape IH Hsame) as Hall.
    rewrite (shapeToBson_ext _ _ _ Hall). reflexivity.
  - rewrite (IH Hsame). reflexivity.
Qed.

Lemma zodToBson_agrees_witness :
  Legacy.zodToBson sampleObject = zodToBsonSchema sampleObject /\
  Legacy.zodToBson (ZodNullable (ZodString [])) <>
    zodToBsonSchema (ZodNullable (ZodString [])).
Proof.
  split; [exact (zodToBson_agrees sampleObject eq_refl) | discriminate].
Defined.

(** *** The uniqueness refinement on all values *)

Lemma pairwiseDistinct_false (items : list JsValue) :
  pairwiseDistinct items = false <->
  exists i j x y,
    (i < j)%nat /\ nth_error items i = Some x /\ nth_error items j = Some y /\
    sameValueZero x y = true.
Proof.
  induction items as [| item rest IH]; simpl.
  - split; [discriminate |].
    intros [i [j [x [y [_ [Hx _]]]]]]. destruct i; discriminate Hx.
  - rewrite andb_false_iff, negb_false_iff. split.
    + intros [H | H].
      * apply existsb_exists in H. destruct H as [y [Hin Hy]].
        apply In_nth_error in Hin. destruct Hin as [n Hn].
        exists 0%nat, (S n), item, y. repeat split; [lia | exact Hn | exact Hy].
      * apply IH in H. destruct H as [i [j [x [y [Hlt [Hx [Hy Heq]]]]]]].
        exists (S i), (S j), x, y. repeat split; [lia | exact Hx | exact Hy | exact Heq].
    + intros [i [j [x [y [Hlt [Hx [Hy Heq]]]]]]].
      destruct j as [| j]; [lia |]. destruct i as [| i].
      * left. simpl in Hx, Hy. injection Hx as <-.
        apply existsb_exists. exists y. split; [| exact Heq].
        exact (nth_error_In _ _ Hy).
      * right. apply IH. exists i, j, x, y. simpl in Hx, Hy.
        repeat split; [lia | exact Hx | exact Hy | exact Heq].
Qed.

(** X16. The uniqueness refinement of an array rejects a list exactly when
    two of its elements, at different positions, are equal for the
    equality of [Set]: equal primitives, or the same object. *)
Theorem uniqueItemsRefinement_rejects (items : list JsValue) :
  uniqueItemsRefinement items = false <->
  exists i j x y,
    (i < j)%nat /\ nth_error items i = Some x /\ nth_error items j = Some y /\
    sameValueZero x y = true.
Proof.
  rewrite uniqueItemsRefinement_pairwiseDistinct. apply pairwiseDistinct_false.
Qed.

Lemma uniqueItemsRefinement_rejects_witness :
  uniqueItemsRefinement [JsNumber 1; JsString "x"; JsNumber 1] = false /\
  uniqueItemsRefinement [firstObject; secondObject; firstObject] = false.
Proof.
  split.
  - apply (proj2 (uniqueItemsRefinement_rejects _)).
    exists 0%nat, 2%nat, (JsNumber 1), (JsNumber 1).
    repeat split. lia.
  - apply (proj2 (uniqueItemsRefinement_rejects _)).
    exists 0%nat, 2%nat, firstObject, firstObject.
    repeat split. lia.
Defined.

Lemma sameValueZero_primitive (x y : JsValue) :
  isPrimitive x = true -> (sameValueZero x y = true <-> x = y).
Proof.
  destruct x, y; simpl; intros Hx; try discriminate Hx;
    split; intros H; try discriminate H; try reflexivity.
  - apply Bool.eqb_prop in H. congruence.
  - injection H as ->. apply Bool.eqb_reflx.
  - apply Z.eqb_eq in H. congruence.
  - injection H as ->. apply Z.eqb_refl.
  - apply String.eqb_eq in H. congruence.
  - injection H as ->. apply String.eqb_refl.
Qed.

(** X17. On a list of primitive values (strings, numbers, booleans,
    [null], [undefined]) the uniqueness refinement accepts exactly the
    lists without a repeated value. *)
Theorem uniqueItemsRefinement_primitives (items : list JsValue) :
  Forall (fun item => isPrimitive item = true) items ->
  (uniqueItemsRefinement items = true <-> NoDup items).
Proof.
  rewrite uniqueItemsRefinement_pairwiseDistinct.
  induction 1 as [| item rest Hitem _ IH]; simpl.
  - split; [constructor | reflexivity].
  - rewrite andb_true_iff, negb_true_iff, IH. split.
    + intros [Hnot Hrest]. constructor; [| exact Hrest].
      intros Hin.
      assert (Htrue : existsb (sameValueZero item) rest = true).
      { apply existsb_exists. exists item. split; [exact Hin |].
        apply sameValueZero_primitive; [exact Hitem | reflexivity]. }
      congruence.
    + intros Hnodup. inversion Hnodup as [| ? ? Hnotin Hrest]; subst.
      split; [| exact Hrest]. apply not_true_is_false. intros H.
      apply existsb_exists in H. destruct H as [y [Hin Hy]].
      apply sameValueZero_primitive in Hy; [| exact Hitem]. subst y.
      exact (Hnotin Hin).
Qed.

Lemma uniqueItemsRefinement_primitives_witness :
  uniqueItemsRefinement [JsString "x"; JsNumber 1; JsNull; JsString "y"] = true <->
  NoDup [JsString "x"; JsNumber 1; JsNull; JsString "y"].
Proof.
  apply uniqueItemsRefinement_primitives. repeat constructor.
Defined.

(** *** Schemas that do not convert to BSON again *)

(** X18. What [mongoSchemaToZod] gives for an array with [uniqueItems],
    for an object with [minProperties] or [maxProperties] and for
    [binData] is a [ZodEffects]: neither [zodToBsonSchema] nor [zodToBson]
    converts it, both throw "Unsupported Zod type: ZodEffects". *)
Theorem refined_schema_is_not_converted (k : Keywords)
  (items : option (TMongoSchema + list TMongoSchema))
  (properties : option (list (string * TMongoSchema)))
  (additional : option (bool + TMongoSchema)) (zodSchema : ZodType) :
  (hasType k "array" = true /\ uniqueItems k = Some true) \/
  (hasType k "object" = true /\
   (minProperties k <> None \/ maxProperties k <> None)) \/
  hasType k "binData" = true ->
  mongoSchemaToZod (Schema k items properties additional) = Ok zodSchema ->
  zodToBsonSchema zodSchema = Throw (Error "Unsupported Zod type: ZodEffects") /\
  Legacy.zodToBson zodSchema = Throw (Error "Unsupported Zod type: ZodEffects").
Proof.
  intros Hcase H.
  assert (Heffects : exists schema effect, zodSchema = ZodEffects schema effect).
  { cbn [mongoSchemaToZod] in H.
    destruct Hcase as [[Harray Hunique] | [[Hobject Hbounds] | Hbin]].
    - rewrite Harray in H. apply bind_Ok in H. destruct H as [element [_ H]].
      injection H as <-. rewrite (uniqueItems_refined _ _ Hunique).
      eexists. eexists. reflexivity.
    - pose proof (hasType_true _ _ Hobject) as Hk.
      rewrite (hasType_Some _ _ "array" Hk), Hobject in H. simpl in H.
      destruct properties as [entries |]; [| discriminate H].
      apply bind_Ok in H. destruct H as [shape [_ H]]. injection H as <-.
      unfold objectToZod.
      destruct (minProperties k), (maxProperties k);
        try (eexists; eexists; reflexivity).
      destruct Hbounds as [Hb | Hb]; congruence.
    - pose proof (hasType_true _ _ Hbin) as Hk.
      rewrite !(hasType_Some _ _ _ Hk) in H. simpl in H. injection H as <-.
      eexists. eexists. reflexivity. }
  destruct Heffects as [schema [effect ->]]. split; reflexivity.
Qed.

Lemma refined_schema_is_not_converted_witness :
  exists zodSchema,
    mongoSchemaToZod uniqueStrings = Ok zodSchema /\
    zodToBsonSchema zodSchema = Throw (Error "Unsupported Zod type: ZodEffects").
Proof.
  eexists. split; [reflexivity |].
  refine (proj1 (refined_schema_is_not_converted
                   (mkKeywords (Some "array") None None None (Some true) None
                      None None None None None None None None)
                   (Some (inl (node (ofType "string")))) None None _ _ eq_refl)).
  left. split; reflexivity.
Defined.

(** *** The types the converters write *)

Lemma bsonTypesOf_objectSchema (entries : list (string * TMongoSchema))
  (names : list string) :
  bsonTypesOf (objectSchema entries names) =
    "object" :: flat_map (fun entry => bsonTypesOf (snd entry)) entries.
Proof. destruct names; simpl; rewrite app_nil_r; reflexivity. Qed.

Lemma bsonTypesOf_arraySchema (items : TMongoSchema) (lo hi : option Z) :
  bsonTypesOf (arraySchema items lo hi) = "array" :: bsonTypesOf items.
Proof. destruct lo, hi; simpl; rewrite app_nil_r; reflexivity. Qed.

Lemma bsonTypesOf_stringToBson (checks : list ZodStringCheck) :
  bsonTypesOf (node (stringToBson checks)) = ["objectId"] \/
  bsonTypesOf (node (stringToBson checks)) = ["string"].
Proof.
  destruct (existsb isObjectIdCheck checks) eqn:Hid.
  - left. rewrite (stringToBson_objectId _ Hid). reflexivity.
  - right. rewrite (stringToBson_keywords _ Hid). reflexivity.
Qed.

Lemma shapeToBson_types (convert : ZodType -> Result TMongoSchema)
  (allowed : list string) (shape : list (string * ZodType)) :
  Forall (fun field => forall d, convert (snd field) = Ok d ->
                                 Forall (fun t => In t allowed) (bsonTypesOf d))
    shape ->
  forall filled,
    shapeToBson convert shape [] [] = Ok filled ->
    Forall (fun t => In t allowed)
      (flat_map (fun entry => bsonTypesOf (snd entry)) (fst filled)).
Proof.
  intros IH [entries names] Hloop. apply shapeToBson_properties in Hloop.
  destruct Hloop as [converted [-> Hall]]. cbn [fst app].
  apply Forall_flat_map. clear names.
  induction Hall as [| field entry shape converted [_ Hvalue] _ IHall];
    constructor.
  - inversion IH as [| ? ? Hfield _]; subst. exact (Hfield _ Hvalue).
  - inversion IH; subst. apply IHall. assumption.
Qed.

Ltac in_list := simpl; tauto.

Ltac all_in_list :=
  simpl; repeat (apply Forall_cons; [in_list |]); apply Forall_nil.

Lemma zodToBsonSchema_types (zodSchema : ZodType) :
  forall descriptor,
    zodToBsonSchema zodSchema = Ok descriptor ->
    Forall (fun t => In t writtenTypes) (bsonTypesOf descriptor).
Proof.
  induction zodSchema as
    [inner IH | inner IH | | options IH | shape uk IH | valueType IH
    | element lo hi IH | checks | checks | | | values | values |
    | schema effect _ | name] using ZodType_nested_ind;
    intros d H; cbn [zodToBsonSchema] in H; try discriminate H;
    try (injection H as <-; all_in_list).
  - exact (IH _ H).
  - apply bind_Ok in H. destruct H as [innerSchema [Hinner H]]. injection H as <-.
    cbn [bsonTypesOf flat_map]. rewrite app_nil_r.
    apply Forall_app. split.
    + all_in_list.
    + exact (IH _ Hinner).
  - apply bind_Ok in H. destruct H as [members [Hmembers H]]. injection H as <-.
    cbn [bsonTypesOf]. apply Forall_flat_map. apply mapM_Forall2 in Hmembers.
    induction Hmembers as [| option member options members Hoption _ IHm];
      constructor.
    + inversion IH as [| ? ? Hfirst _]; subst. exact (Hfirst _ Hoption).
    + inversion IH; subst. apply IHm. assumption.
  - apply bind_Ok in H. destruct H as [filled [Hloop H]]. injection H as <-.
    rewrite bsonTypesOf_objectSchema. constructor; [in_list |].
    exact (shapeToBson_types _ _ _ IH _ Hloop).
  - apply bind_Ok in H. destruct H as [valueSchema [Hvalue H]]. injection H as <-.
    cbn [bsonTypesOf bsonType ofType app]. constructor; [in_list |].
    exact (IH _ Hvalue).
  - apply bind_Ok in H. destruct H as [items [Hitems H]]. injection H as <-.
    rewrite bsonTypesOf_arraySchema. constructor; [in_list |]. exact (IH _ Hitems).
  - injection H as <-.
    destruct (bsonTypesOf_stringToBson checks) as [-> | ->]; all_in_list.
  - injection H as <-. rewrite numberToBson_alternatives.
    destruct (existsb Legacy.isIntCheck checks), (lastMinimum checks),
      (lastMaximum checks); all_in_list.
Qed.

Lemma zodToBson_types (zodSchema : ZodType) :
  forall descriptor,
    Legacy.zodToBson zodSchema = Ok descriptor ->
    Forall (fun t => In t writtenTypesLegacy) (bsonTypesOf descriptor).
Proof.
  induction zodSchema as
    [inner IH | inner IH | | options IH | shape uk IH | valueType IH
    | element lo hi IH | checks | checks | | | values | values |
    | schema effect _ | name] using ZodType_nested_ind;
    intros d H; cbn [Legacy.zodToBson] in H; try discriminate H;
    try (injection H as <-; all_in_list).
  - exact (IH _ H).
  - exact (IH _ H).
  - apply bind_Ok in H. destruct H as [filled [Hloop H]]. injection H as <-.
    rewrite bsonTypesOf_objectSchema. constructor; [in_list |].
    exact (shapeToBson_types _ _ _ IH _ Hloop).
  - apply bind_Ok in H. destruct H as [items [Hitems H]]. injection H as <-.
    rewrite bsonTypesOf_arraySchema. constructor; [in_list |]. exact (IH _ Hitems).
  - injection H as <-.
    destruct (bsonTypesOf_stringToBson checks) as [-> | ->]; all_in_list.
  - injection H as <-. rewrite legacy_numberToBson_keywords.
    destruct (existsb Legacy.isIntCheck checks); all_in_list.
Qed.

(** X19. Every [bsonType] in a BSON schema written by [zodToBsonSchema],
    at any depth, is one of [object], [array], [string], [objectId],
    [bool], [date], [null], [int], [long], [double] and [decimal]; with
    [zodToBson] it is one of the first six, [int] and [double].  So no
    schema converts to [uuid], [binData], [regex], [timestamp] or [mixed],
    and [zodToBson] never writes [long], [decimal] or [null]. *)
Theorem written_bson_types (zodSchema : ZodType) (descriptor : TMongoSchema) :
  (zodToBsonSchema zodSchema = Ok descriptor ->
   Forall (fun t => In t writtenTypes) (bsonTypesOf descriptor)) /\
  (Legacy.zodToBson zodSchema = Ok descriptor ->
   Forall (fun t => In t writtenTypesLegacy) (bsonTypesOf descriptor)).
Proof.
  split; [apply zodToBsonSchema_types | apply zodToBson_types].
Qed.

Lemma written_bson_types_witness :
  exists descriptor,
    Legacy.zodToBson userSchema = Ok descriptor /\
    bsonTypesOf descriptor =
      ["object"; "string"; "string"; "int"; "bool"; "array"; "string"] /\
    Forall (fun t => In t writtenTypesLegacy) (bsonTypesOf descriptor).
Proof.
  eexists. split; [reflexivity |]. split; [reflexivity |].
  exact (proj2 (written_bson_types userSchema _) eq_refl).
Defined.

(** *** From BSON to Zod and back to BSON *)

(** X20. A BSON schema of type [uuid] does not come back: its Zod schema
    is a string with the [uuid] check, which both converters to BSON turn
    into the plain [{ bsonType: 'string' }]. *)
Theorem uuid_comes_back_as_string (k : Keywords)
  (items : option (TMongoSchema + list TMongoSchema))
  (properties : option (list (string * TMongoSchema)))
  (additional : option (bool + TMongoSchema)) :
  hasType k "uuid" = true ->
  mongoSchemaToZod (Schema k items properties additional) =
    Ok (ZodString [StringUuid]) /\
  Legacy.bsonToZod (Schema k items properties additional) =
    Ok (ZodString [StringUuid]) /\
  zodToBsonSchema (ZodString [StringUuid]) = Ok (node (ofType "string")) /\
  Legacy.zodToBson (ZodString [StringUuid]) = Ok (node (ofType "string")).
Proof.
  intros Huuid. pose proof (hasType_true _ _ Huuid) as Hk.
  cbn [mongoSchemaToZod Legacy.bsonToZod].
  rewrite !(hasType_Some _ _ _ Hk). repeat split.
Qed.

Lemma uuid_comes_back_as_string_witness :
  mongoSchemaToZod (node (ofType "uuid")) = Ok (ZodString [StringUuid]) /\
  zodToBsonSchema (ZodString [StringUuid]) = Ok (node (ofType "string")).
Proof.
  destruct (uuid_comes_back_as_string (ofType "uuid") None None None eq_refl)
    as [Hback [_ [Hforth _]]].
  split; [exact Hback | exact Hforth].
Defined.

(** X21. With [bsonToZod] and [zodToBson] a numeric BSON schema comes back
    with the type [int] when its type is [int] or [long] and [double] when
    it is [double], [decimal] or [number], with its [minimum], [maximum]
    and [multipleOf] and nothing else. *)
Theorem legacy_number_types_collapse (k : Keywords)
  (items : option (TMongoSchema + list TMongoSchema))
  (properties : option (list (string * TMongoSchema)))
  (additional : option (bool + TMongoSchema)) :
  includesType numberTypes k = true ->
  exists zodSchema,
    Legacy.bsonToZod (Schema k items properties additional) = Ok zodSchema /\
    Legacy.zodToBson zodSchema =
      Ok (node (numberKeywords
                  (if includesType ["int"; "long"] k then "int" else "double")
                  (minimum k) (maximum k) (multipleOf k))).
Proof.
  intros Hnumber. exists (numberToZod k). split.
  - cbn [Legacy.bsonToZod]. unfold includesType, hasType in *.
    destruct (bsonType k) as [t |]; [| discriminate Hnumber].
    simpl in Hnumber. rewrite !orb_false_r in Hnumber.
    repeat (apply orb_true_iff in Hnumber; destruct Hnumber as [Hnumber | Hnumber]);
      apply String.eqb_eq in Hnumber; subst t; reflexivity.
  - unfold numberToZod. cbn [Legacy.zodToBson].
    rewrite legacy_numberToBson_keywords.
    destruct (includesType ["int"; "long"] k), (minimum k), (maximum k),
      (multipleOf k); reflexivity.
Qed.

Lemma legacy_number_types_collapse_witness :
  exists zodSchema,
    Legacy.bsonToZod (node (set_minimum 0 (ofType "long"))) = Ok zodSchema /\
    Legacy.zodToBson zodSchema = Ok (node (set_minimum 0 (ofType "int"))).
Proof.
  exact (legacy_number_types_collapse (set_minimum 0 (ofType "long"))
           None None None eq_refl).
Defined.

(** *** Arrays *)

(** X22. An array that converts both ways comes back as an array of the
    round trip of its element, with the same two length bounds and without
    refinement; the BSON schema in between has [minItems] and [maxItems]
    exactly where the array has a bound, and no [uniqueItems]. *)
Theorem array_round_trip (element : ZodType) (lo hi : option Z)
  (descriptor : TMongoSchema) (zodSchema : ZodType) :
  zodToBsonSchema (ZodArray element lo hi) = Ok descriptor ->
  mongoSchemaToZod descriptor = Ok zodSchema ->
  exists k items element',
    descriptor = Schema k (Some (inl items)) None None /\
    minItems k = lo /\ maxItems k = hi /\ uniqueItems k = None /\
    zodToBsonSchema element = Ok items /\
    mongoSchemaToZod items = Ok element' /\
    zodSchema = ZodArray element' lo hi.
Proof.
  cbn [zodToBsonSchema]. intros Hforward Hbackward.
  apply bind_Ok in Hforward. destruct Hforward as [items [Hitems H]].
  injection H as <-. rewrite mongoSchemaToZod_arraySchema in Hbackward.
  apply bind_Ok in Hbackward. destruct Hbackward as [element' [Helement H]].
  injection H as <-.
  eexists. exists items, element'. split; [reflexivity |].
  repeat split; try assumption; destruct lo, hi; reflexivity.
Qed.

Lemma array_round_trip_witness :
  exists k items element',
    zodToBsonSchema (ZodArray (ZodString [StringMin 1]) (Some 1) None) =
      Ok (Schema k (Some (inl items)) None None) /\
    minItems k = Some 1 /\ maxItems k = None /\
    mongoSchemaToZod (Schema k (Some (inl items)) None None) =
      Ok (ZodArray element' (Some 1) None).
Proof.
  destruct (array_round_trip (ZodString [StringMin 1]) (Some 1) None _ _
              eq_refl eq_refl)
    as [k [items [element' [Hd [Hlo [Hhi [_ [_ [_ Hz]]]]]]]]].
  exists k, items, element'. rewrite <- Hd, <- Hz. repeat split; assumption.
Defined.

(** X23. For a BSON schema of type [array] whose [items] is a list: a list
    of one schema is treated as that schema alone; with any other number
    of schemas the element of the array is the union of their conversions
    in order, so the position of a schema in [items] is not kept. *)
Theorem array_items_list (k : Keywords) (several : list TMongoSchema)
  (properties : option (list (string * TMongoSchema)))
  (additional : option (bool + TMongoSchema)) (zodSchema : ZodType) :
  hasType k "array" = true ->
  mongoSchemaToZod (Schema k (Some (inr several)) properties additional) =
    Ok zodSchema ->
  exists element,
    withoutEffect zodSchema = ZodArray element (minItems k) (maxItems k) /\
    (forall single, several = [single] ->
       mongoSchemaToZod single = Ok element /\
       mongoSchemaToZod (Schema k (Some (inl single)) properties additional) =
         Ok zodSchema) /\
    (List.length several <> 1%nat ->
     exists members,
       element = ZodUnion members /\
       Forall2 (fun member schema => mongoSchemaToZod member = Ok schema)
         several members).
Proof.
  intros Harray H. cbn [mongoSchemaToZod] in H. rewrite Harray in H.
  apply bind_Ok in H. destruct H as [element [Helement H]]. injection H as <-.
  exists element. split; [| split].
  - unfold arrayToZod. destruct (uniqueItems k) as [[|] |]; reflexivity.
  - intros single ->. split; [exact Helement |].
    cbn [mongoSchemaToZod]. rewrite Harray, Helement. reflexivity.
  - intros Hlength. destruct several as [| first [| second rest]].
    + simpl in Helement. injection Helement as <-. exists []. split; constructor.
    + simpl in Hlength. congruence.
    + apply bind_Ok in Helement. destruct Helement as [members [Hmembers H]].
      injection H as <-. exists members. split; [reflexivity |].
      apply mapM_Forall2. exact Hmembers.
Qed.

Lemma array_items_list_witness :
  exists element,
    withoutEffect
      (ZodArray (ZodUnion [ZodString []; ZodBoolean]) None None) =
      ZodArray element None None /\
    element = ZodUnion [ZodString []; ZodBoolean].
Proof.
  destruct (array_items_list (ofType "array")
              [node (ofType "string"); node (ofType "bool")] None None _
              eq_refl eq_refl) as [element [Hshape [_ Hunion]]].
  exists element. split; [exact Hshape |].
  simpl in Hshape. injection Hshape as <-. reflexivity.
Defined.

(** *** Strings in closed form *)

(** X24. For a string without the ObjectId pattern both converters to BSON
    give exactly [{ bsonType: 'string' }] with [minLength] the value of
    the last [min] check, [maxLength] that of the last [max] check and
    [pattern] the source of the last [regex] check or the e-mail pattern,
    whichever check comes last; a keyword without such a check is absent
    and every other check ([uuid], [url], ...) leaves no trace. *)
Theorem string_descriptor_closed_form (checks : list ZodStringCheck) :
  existsb isObjectIdCheck checks = false ->
  zodToBsonSchema (ZodString checks) =
    Ok (node (stringKeywords (lastMinLength checks) (lastMaxLength checks)
                (lastPattern checks))) /\
  Legacy.zodToBson (ZodString checks) = zodToBsonSchema (ZodString checks).
Proof.
  intros Hid. cbn [zodToBsonSchema Legacy.zodToBson].
  rewrite (stringToBson_keywords _ Hid). split; reflexivity.
Qed.

Lemma string_descriptor_closed_form_witness :
  zodToBsonSchema
    (ZodString [StringMin 2; StringOtherCheck "url"; StringMin 5; StringEmail]) =
    Ok (node (stringKeywords (Some 5) None (Some emailPattern))).
Proof.
  exact (proj1 (string_descriptor_closed_form
                  [StringMin 2; StringOtherCheck "url"; StringMin 5; StringEmail]
                  eq_refl)).
Defined.
